(** * AccessibilityAgent: the VoiceOver HTTP client and its scripted scenario

    A shallow embedding of [voiceover_client.py] and [main.py].  Python
    values are a small universe of JSON-decoded data, the interpreter's
    effects (HTTP calls, console output, sleeping, exceptions) are an
    explicit state-and-exception monad over a trace of events, and the
    remote server is a function giving the reply to the n-th call. *)

From Stdlib Require Import String Ascii ZArith List Bool Lia PrimFloat DecimalString.
Import ListNotations.

Set Warnings "-register-all".

Open Scope string_scope.

(** ** Python values *)

(** What [response.json()] and an LLM command can hold: the values the
    [json] module decodes to.  A [dict] keeps its entries in insertion
    order, keyed by [str]. *)
Inductive pyval : Type :=
| PyNone
| PyBool (b : bool)
| PyInt (n : Z)
| PyFloat (x : float)
| PyStr (s : string)
| PyList (items : list pyval)
| PyDict (entries : list (string * pyval)).

Definition pydict := list (string * pyval).

(** [bool(v)]: the test behind [if v], [not v] and [a or b]. *)
Definition truthy (v : pyval) : bool :=
  match v with
  | PyNone => false
  | PyBool b => b
  | PyInt n => negb (n =? 0)%Z
  | PyFloat x => negb (PrimFloat.eqb x 0%float)
  | PyStr s => negb (s =? "")
  | PyList items => match items with [] => false | _ :: _ => true end
  | PyDict entries => match entries with [] => false | _ :: _ => true end
  end.

(** [a or b] *)
Definition py_or (a b : pyval) : pyval := if truthy a then a else b.

(** [type(v).__name__], as it appears in an [AttributeError]. *)
Definition type_name (v : pyval) : string :=
  match v with
  | PyNone => "NoneType"
  | PyBool _ => "bool"
  | PyInt _ => "int"
  | PyFloat _ => "float"
  | PyStr _ => "str"
  | PyList _ => "list"
  | PyDict _ => "dict"
  end.

(** [v == s] for a [str] literal [s]: only an equal [str] compares equal. *)
Definition py_eq_str (v : pyval) (s : string) : bool :=
  match v with
  | PyStr t => t =? s
  | _ => false
  end.

(** First binding of [key] among the entries of a dict. *)
Fixpoint dict_lookup (d : pydict) (key : string) : option pyval :=
  match d with
  | [] => None
  | (k, v) :: rest => if k =? key then Some v else dict_lookup rest key
  end.

(** [d.get(key, default)] on a dict. *)
Definition dict_get (d : pydict) (key : string) (default : pyval) : pyval :=
  match dict_lookup d key with
  | Some v => v
  | None => default
  end.

(** [needle in hay] on two [str]: [needle] occurs as a contiguous run. *)
Fixpoint str_in (needle hay : string) : bool :=
  String.prefix needle hay ||
  match hay with
  | EmptyString => false
  | String _ rest => str_in needle rest
  end.

(** [str(n)] for an [int] within the digit limit of integer
    conversion; see [py_format] for a value that may exceed it. *)
Definition int_str (n : Z) : string := NilZero.string_of_int (Z.to_int n).

(** ** Case mapping of ASCII text *)

Definition ascii_lower_char (c : ascii) : ascii :=
  let n := nat_of_ascii c in
  if (65 <=? n)%nat && (n <=? 90)%nat then ascii_of_nat (n + 32) else c.

Definition ascii_upper_char (c : ascii) : ascii :=
  let n := nat_of_ascii c in
  if (97 <=? n)%nat && (n <=? 122)%nat then ascii_of_nat (n - 32) else c.

Fixpoint str_map (f : ascii -> ascii) (s : string) : string :=
  match s with
  | EmptyString => EmptyString
  | String c rest => String (f c) (str_map f rest)
  end.

Definition ascii_lower : string -> string := str_map ascii_lower_char.
Definition ascii_upper : string -> string := str_map ascii_upper_char.

(** Every character is below 128. *)
Fixpoint is_ascii (s : string) : bool :=
  match s with
  | EmptyString => true
  | String c rest => (nat_of_ascii c <? 128)%nat && is_ascii rest
  end.

(** The built-ins whose result depends on the Unicode database or on the
    float printer: [str.lower], [str.upper], and [repr] of floats and
    containers.  A [str] is held as its UTF-8 text; beyond ASCII the
    case mappings are left abstract, on ASCII text they are the usual
    ones. *)
Class PyBuiltins : Type := {
  str_lower : string -> string;
  str_upper : string -> string;
  py_repr : pyval -> string;
  str_lower_ascii : forall s, is_ascii s = true -> str_lower s = ascii_lower s;
  str_upper_ascii : forall s, is_ascii s = true -> str_upper s = ascii_upper s
}.

(** An instance to run the model with: case mapping of the ASCII
    letters only, and a placeholder rendering for the values whose
    [repr] is not modelled. *)
Definition ascii_builtins : PyBuiltins :=
  {| str_lower := ascii_lower;
     str_upper := ascii_upper;
     py_repr := fun v => "<" ++ type_name v ++ ">";
     str_lower_ascii := fun _ _ => eq_refl;
     str_upper_ascii := fun _ _ => eq_refl |}.

(** [str(v)], which is also what an f-string field [{v}] renders. *)
Definition py_str `{PyBuiltins} (v : pyval) : string :=
  match v with
  | PyNone => "None"
  | PyBool true => "True"
  | PyBool false => "False"
  | PyInt n => int_str n
  | PyStr s => s
  | PyFloat _ | PyList _ | PyDict _ => py_repr v
  end.

(** ** Exceptions *)

(** Classes of [Exception] the code tells apart or raises itself.
    [ConnectionError] is [requests.exceptions.ConnectionError] with its
    subclasses; [OtherException] is any other instance of [Exception].
    What lies outside [Exception] ([KeyboardInterrupt], [SystemExit])
    comes from the user or the interpreter, not from a call, and is not
    part of the model. *)
Inductive exn_class : Type :=
| ConnectionError
| JSONDecodeError
| ValueError
| AttributeError
| OtherException.

(** An exception object: its class, and [str(e)]. *)
Record exn : Type := mkExn { exn_cls : exn_class; exn_str : string }.

(** [isinstance(e, requests.exceptions.ConnectionError)] *)
Definition is_ConnectionError (e : exn) : bool :=
  match exn_cls e with
  | ConnectionError => true
  | _ => false
  end.

(** ** The HTTP boundary and the trace *)

Inductive http_method : Type := GET | POST.

(** A call of [requests.get(url)] or [requests.post(url, json=...)]. *)
Record request : Type := mkRequest {
  req_method : http_method;
  req_url : string;
  req_json : option pyval
}.

(** What [response.json()] gives on the body: the decoded value, or the
    text of the decoder's error. *)
Inductive json_body : Type :=
| Decoded (v : pyval)
| Undecodable (msg : string).

Record response : Type := mkResponse {
  status_code : Z;
  body : json_body
}.

(** The remote server, seen from the client: the outcome of the n-th
    call of the run, an exception raised by [requests] or a response. *)
Definition server := nat -> request -> exn + response.

(** Observable effects, in the order they happen.  A sleep is recorded
    in milliseconds. *)
Inductive event : Type :=
| EvRequest (r : request)
| EvPrint (line : string)
| EvSleep (ms : N).

Record world : Type := mkWorld {
  served : nat;
  trace : list event
}.

Definition initial_world : world := mkWorld 0 [].

(** ** The monad of Python code *)

Inductive result (A : Type) : Type :=
| Ret (a : A)
| Raise (e : exn)
| OutOfFuel.

Arguments Ret {A} a.
Arguments Raise {A} e.
Arguments OutOfFuel {A}.

Definition M (A : Type) : Type := world -> result A * world.

Definition ret {A} (a : A) : M A := fun w => (Ret a, w).

Definition bind {A B} (m : M A) (f : A -> M B) : M B :=
  fun w =>
    match m w with
    | (Ret a, w') => f a w'
    | (Raise e, w') => (Raise e, w')
    | (OutOfFuel, w') => (OutOfFuel, w')
    end.

Definition raise {A} (e : exn) : M A := fun w => (Raise e, w).

(** [try: m  except Exception as e: h e] *)
Definition try_except {A} (m : M A) (h : exn -> M A) : M A :=
  fun w =>
    match m w with
    | (Raise e, w') => h e w'
    | other => other
    end.

Declare Scope py_scope.
Delimit Scope py_scope with py.
Notation "x <- m ;; k" := (bind m (fun x => k))
  (at level 100, m at next level, right associativity) : py_scope.
Notation "m ;;; k" := (bind m (fun _ => k))
  (at level 100, right associativity) : py_scope.
Open Scope py_scope.

Definition emit (ev : event) : M unit :=
  fun w => (Ret tt, mkWorld (served w) (trace w ++ [ev])).

Definition print (line : string) : M unit := emit (EvPrint line).

Definition sleep (ms : N) : M unit := emit (EvSleep ms).

(** ** What the console can encode *)

(** A [str] can hold a lone surrogate: the [json] module decodes the
    escape [\ud83d] to one.  Such a code point is held in the
    generalized UTF-8 form, the three bytes [ED], [A0..BF], [80..BF];
    well-formed UTF-8 never has [ED] followed by [A0..BF]. *)
Definition starts_surrogate (s : string) : bool :=
  match s with
  | String c (String c' _) =>
      (N_of_ascii c =? 237)%N
      && ((160 <=? N_of_ascii c')%N && (N_of_ascii c' <? 192)%N)
  | _ => false
  end.

Fixpoint has_surrogate (s : string) : bool :=
  match s with
  | EmptyString => false
  | String c rest =>
      if (N_of_ascii c =? 237)%N
      then match rest with
           | String c' _ =>
               ((160 <=? N_of_ascii c')%N && (N_of_ascii c' <? 192)%N)
               || has_surrogate rest
           | EmptyString => false
           end
      else has_surrogate rest
  end.

(** A byte that continues a UTF-8 sequence. *)
Definition is_continuation (c : ascii) : bool :=
  let n := nat_of_ascii c in (128 <=? n)%nat && (n <? 192)%nat.

(** The index, in characters, of the first surrogate. *)
Fixpoint chars_before_surrogate (s : string) : nat :=
  match s with
  | EmptyString => 0
  | String c rest =>
      if starts_surrogate s then 0
      else (if is_continuation c then 0 else 1) + chars_before_surrogate rest
  end.

(** The text from its first surrogate on. *)
Fixpoint from_surrogate (s : string) : string :=
  match s with
  | EmptyString => EmptyString
  | String c rest => if starts_surrogate s then s else from_surrogate rest
  end.

(** How many surrogates stand in a row at the head of the text. *)
Fixpoint surrogate_run (s : string) : nat :=
  match s with
  | String c1 (String c2 (String c3 rest)) =>
      if starts_surrogate s then S (surrogate_run rest) else 0
  | _ => 0
  end.

Definition hex_digit (n : nat) : string :=
  String (ascii_of_nat (if (n <? 10)%nat then 48 + n else 87 + n)) "".

(** The last three hexadecimal digits of the surrogate at the head of
    the text; the first is always [d]. *)
Definition surrogate_hex (s : string) : string :=
  match s with
  | String _ (String c2 (String c3 _)) =>
      let n := (nat_of_ascii c2 - 128) * 64 + (nat_of_ascii c3 - 128) in
      hex_digit (n / 256) ++ hex_digit ((n / 16) mod 16) ++ hex_digit (n mod 16)
  | _ => ""
  end.

(** [str(e)] of the [UnicodeEncodeError] the UTF-8 encoder raises on a
    text that holds a surrogate. *)
Definition encode_error (line : string) : string :=
  let start := chars_before_surrogate line in
  let tail := from_surrogate line in
  let count := surrogate_run tail in
  if (count <=? 1)%nat
  then "'utf-8' codec can't encode character '\ud" ++ surrogate_hex tail
       ++ "' in position " ++ int_str (Z.of_nat start)
       ++ ": surrogates not allowed"
  else "'utf-8' codec can't encode characters in position "
       ++ int_str (Z.of_nat start) ++ "-" ++ int_str (Z.of_nat (start + count - 1))
       ++ ": surrogates not allowed".

Arguments encode_error : simpl never.

(** [print(line)] of a line that carries text from the server or from
    the caller, on a UTF-8 console: the whole line is written, or
    nothing is and the encoder's [UnicodeEncodeError] (a [ValueError])
    is raised.  [print] above is for the lines whose text is fixed in
    the source, a status code, a [repr], or [str(e)] of an exception:
    none of these holds a surrogate. *)
Definition print_text (line : string) : M unit :=
  if has_surrogate line
  then raise (mkExn ValueError (encode_error line))
  else print line.

(** [e] is the encoder's refusal of some line. *)
Definition encode_failure (e : exn) : Prop :=
  exists line, has_surrogate line = true /\ e = mkExn ValueError (encode_error line).

(** The lone surrogate U+D83D, as the [json] module decodes the escape
    [\ud83d]. *)
Definition lone_surrogate : string :=
  String "237"%char (String "160"%char (String "189"%char "")).

(** [response.json()] *)
Definition response_json (r : response) : M pyval :=
  match body r with
  | Decoded v => ret v
  | Undecodable msg => raise (mkExn JSONDecodeError msg)
  end.

(** [v.get(key, default)]: only a dict has the method. *)
Definition py_get (v : pyval) (key : string) (default : pyval) : M pyval :=
  match v with
  | PyDict d => ret (dict_get d key default)
  | _ => raise (mkExn AttributeError
                  ("'" ++ type_name v ++ "' object has no attribute 'get'"))
  end.

(** [v.lower()]: only a [str] has the method. *)
Definition py_lower `{PyBuiltins} (v : pyval) : M string :=
  match v with
  | PyStr s => ret (str_lower s)
  | _ => raise (mkExn AttributeError
                  ("'" ++ type_name v ++ "' object has no attribute 'lower'"))
  end.

(** ** The digit limit of integer conversion *)

(** CPython 3.11 and later refuse to convert an [int] of more than
    4300 digits to text, also inside a container.  The [json] decoder
    is under the same limit, so a value decoded from a reply never
    holds such an integer and [py_str] is total on it; a value built by
    the caller can. *)
Definition int_max_str_digits : Z := 4300.

Definition int_fits (n : Z) : bool := (Z.abs n <? 10 ^ int_max_str_digits)%Z.

Arguments int_fits : simpl never.

Fixpoint ints_fit (v : pyval) : bool :=
  match v with
  | PyInt n => int_fits n
  | PyList items => forallb ints_fit items
  | PyDict entries => forallb (fun kv : string * pyval => let (_, x) := kv in ints_fit x) entries
  | PyNone | PyBool _ | PyFloat _ | PyStr _ => true
  end.

Definition digits_message : string :=
  "Exceeds the limit (4300 digits) for integer string conversion; use sys.set_int_max_str_digits() to increase the limit".

(** An f-string field [{v}] on a value of the caller's. *)
Definition py_format `{PyBuiltins} (v : pyval) : M string :=
  if ints_fit v
  then ret (py_str v)
  else raise (mkExn ValueError digits_message).

Section Program.

Context `{PyBuiltins}.
Variable srv : server.

Definition http_send (r : request) : M response :=
  fun w =>
    let w' := mkWorld (S (served w)) (trace w ++ [EvRequest r]) in
    match srv (served w) r with
    | inl e => (Raise e, w')
    | inr resp => (Ret resp, w')
    end.

(** [requests.get(url)] *)
Definition requests_get (url : string) : M response :=
  http_send (mkRequest GET url None).

(** [requests.post(url)] and [requests.post(url, json=payload)] *)
Definition requests_post (url : string) (payload : option pyval) : M response :=
  http_send (mkRequest POST url payload).

(** ** voiceover_client.py *)

Record VoiceOverResponse : Type := mkVoiceOverResponse {
  success : pyval;
  message : pyval;
  currentItem : pyval;
  responses : pyval;
  error : pyval
}.

Record VoiceOverClient : Type := mkVoiceOverClient { base_url : string }.

(** [VoiceOverResponse(success=False, error=msg)] *)
Definition failure (msg : string) : VoiceOverResponse :=
  mkVoiceOverResponse (PyBool false) PyNone PyNone PyNone (PyStr msg).

(** The body of the [try] in [_make_request]. *)
Definition _make_request_try (url method : string) (data : pyval)
  : M VoiceOverResponse :=
  response <-
    (if str_upper method =? "GET" then requests_get url
     else if str_upper method =? "POST"
          then requests_post url (Some (py_or data (PyDict [])))
          else raise (mkExn ValueError ("Unsupported method: " ++ method))) ;;
  result <- response_json response ;;
  r_success <- py_get result "success" (PyBool false) ;;
  r_message <- py_get result "message" PyNone ;;
  r_currentItem <- py_get result "currentItem" PyNone ;;
  r_responses <- py_get result "responses" PyNone ;;
  r_error <- py_get result "error" PyNone ;;
  ret (mkVoiceOverResponse r_success r_message r_currentItem r_responses r_error).

Definition connection_message : string :=
  "Could not connect to VoiceOver server. Make sure it's running.".

Definition _make_request (self : VoiceOverClient) (method endpoint : string)
    (data : pyval) : M VoiceOverResponse :=
  let url := base_url self ++ endpoint in
  try_except (_make_request_try url method data)
    (fun e =>
       if is_ConnectionError e
       then ret (failure connection_message)
       else ret (failure (exn_str e))).

Definition start_voiceover (self : VoiceOverClient) : M VoiceOverResponse :=
  _make_request self "POST" "/voiceover/start" PyNone.

Definition stop_voiceover (self : VoiceOverClient) : M VoiceOverResponse :=
  _make_request self "POST" "/voiceover/stop" PyNone.

Definition type_text (self : VoiceOverClient) (text : pyval) : M VoiceOverResponse :=
  _make_request self "POST" "/voiceover/type" (PyDict [("text", text)]).

Definition navigate_next (self : VoiceOverClient) : M VoiceOverResponse :=
  _make_request self "POST" "/voiceover/next" PyNone.

Definition navigate_previous (self : VoiceOverClient) : M VoiceOverResponse :=
  _make_request self "POST" "/voiceover/previous" PyNone.

Definition get_current_item (self : VoiceOverClient) : M VoiceOverResponse :=
  _make_request self "GET" "/voiceover/current" PyNone.

Definition click_current (self : VoiceOverClient) : M VoiceOverResponse :=
  _make_request self "POST" "/voiceover/click" PyNone.

Definition open_app (self : VoiceOverClient) (app_name : pyval) : M VoiceOverResponse :=
  _make_request self "POST" "/system/open-app" (PyDict [("appName", app_name)]).

Definition press_key (self : VoiceOverClient) (key : pyval) : M VoiceOverResponse :=
  _make_request self "POST" "/system/press-key" (PyDict [("key", key)]).

Definition open_copilot_and_send_message (self : VoiceOverClient) (msg : pyval)
  : M VoiceOverResponse :=
  _make_request self "POST" "/operations/open-copilot-and-send-message"
    (PyDict [("message", msg)]).

Definition health_check (self : VoiceOverClient) : M VoiceOverResponse :=
  _make_request self "GET" "/health" PyNone.

Record AccessibilityAgent : Type := mkAccessibilityAgent {
  voice_over : VoiceOverClient
}.

(** [AccessibilityAgent()]: a client on the default base URL. *)
Definition new_agent : AccessibilityAgent :=
  mkAccessibilityAgent (mkVoiceOverClient "http://localhost:3000").

Definition execute_llm_command (self : AccessibilityAgent) (llm_response : pydict)
  : M VoiceOverResponse :=
  let action := dict_get llm_response "action" PyNone in
  if py_eq_str action "type" then
    type_text (voice_over self) (dict_get llm_response "text" (PyStr ""))
  else if py_eq_str action "navigate_next" then
    navigate_next (voice_over self)
  else if py_eq_str action "navigate_previous" then
    navigate_previous (voice_over self)
  else if py_eq_str action "click" then
    click_current (voice_over self)
  else if py_eq_str action "open_app" then
    open_app (voice_over self) (dict_get llm_response "app_name" (PyStr ""))
  else if py_eq_str action "press_key" then
    press_key (voice_over self) (dict_get llm_response "key" (PyStr ""))
  else
    shown <- py_format action ;;
    ret (failure ("Unknown action: " ++ shown)).

(** [get_current_state]: the text handed to the LLM as context. *)
Definition get_current_state (self : AccessibilityAgent) : M pyval :=
  r <- get_current_item (voice_over self) ;;
  if truthy (success r)
  then ret (py_or (currentItem r) (PyStr "No current item"))
  else ret (PyStr ("Error getting current state: " ++ py_str (error r))).

(** ** main.py *)

(** [s * n] on a [str]. *)
Fixpoint str_repeat (s : string) (n : nat) : string :=
  match n with
  | O => ""
  | S n' => s ++ str_repeat s n'
  end.

(** The line feed of the ["\n..."] literals. *)
Definition nl : string := String (ascii_of_nat 10) "".

(** The script's local [base_url]. *)
Definition script_url : string := "http://localhost:3000".

(** How a step of the script is left: by falling through to the next
    step, or by [return]. *)
Inductive flow : Type := Proceed | Returned.

(** How one turn of a [while] body is left: by reaching its end, or by
    [break]. *)
Inductive ctl : Type := Next | Break.

(** [while cond(s): body], on the local variables [s] the loop updates.
    [fuel] bounds the number of times the condition is evaluated. *)
Fixpoint py_while {S : Type} (fuel : nat) (cond : S -> bool)
    (body : S -> M (ctl * S)) (s : S) : M S :=
  match fuel with
  | O => fun w => (OutOfFuel, w)
  | Datatypes.S fuel' =>
      if cond s
      then r <- body s ;;
           match fst r with
           | Break => ret (snd r)
           | Next => py_while fuel' cond body (snd r)
           end
      else ret s
  end.

(** 1. Health check *)
Definition step_health_check : M flow :=
  print "1. Checking server status..." ;;;
  try_except
    (response <- requests_get (script_url ++ "/health") ;;
     if (status_code response =? 200)%Z
     then data <- response_json response ;;
          print "   ✅ Server running normally" ;;;
          running <- py_get data "voiceOverRunning" PyNone ;;
          print ("   📊 VoiceOver status: "
                 ++ (if truthy running then "Running" else "Not running")) ;;;
          ret Proceed
     else print ("   ❌ Server error: " ++ int_str (status_code response)) ;;;
          ret Returned)
    (fun e => print ("   ❌ Connection failed: " ++ exn_str e) ;;; ret Returned).

Definition permissions_hint : string :=
  "   💡 Please ensure VoiceOver permissions are configured as per README".

(** 2. Start VoiceOver *)
Definition step_start_voiceover : M flow :=
  print (nl ++ "2. Starting VoiceOver...") ;;;
  try_except
    (response <- requests_post (script_url ++ "/voiceover/start") None ;;
     result <- response_json response ;;
     ok <- py_get result "success" PyNone ;;
     if truthy ok
     then print "   ✅ VoiceOver started successfully" ;;; ret Proceed
     else err <- py_get result "error" PyNone ;;
          print_text ("   ❌ VoiceOver startup failed: " ++ py_str err) ;;;
          err' <- py_get result "error" (PyStr "") ;;
          (if str_in "VoiceOver not supported" (py_str err')
           then print permissions_hint
           else ret tt) ;;;
          ret Returned)
    (fun e => print ("   ❌ Request failed: " ++ exn_str e) ;;; ret Returned).

(** The [for app_name in copilot_names] loop; the value is
    [copilot_opened]. *)
Fixpoint open_copilot_loop (copilot_names : list string) : M bool :=
  match copilot_names with
  | [] => ret false
  | app_name :: rest =>
      opened <-
        try_except
          (response <- requests_post (script_url ++ "/system/open-app")
                         (Some (PyDict [("appName", PyStr app_name)])) ;;
           result <- response_json response ;;
           ok <- py_get result "success" PyNone ;;
           if truthy ok
           then print ("   ✅ Successfully opened " ++ app_name) ;;; ret true
           else err <- py_get result "error" PyNone ;;
                print_text ("   ⚠️  Trying to open " ++ app_name ++ ": " ++ py_str err) ;;;
                ret false)
          (fun e =>
             print ("   ❌ Failed to try " ++ app_name ++ ": " ++ exn_str e) ;;;
             ret false) ;;
      if opened then ret true else open_copilot_loop rest
  end.

(** 3. Open Copilot *)
Definition step_open_copilot : M unit :=
  print (nl ++ "3. Opening Copilot...") ;;;
  try_except
    (copilot_opened <- open_copilot_loop ["Copilot"] ;;
     (if negb copilot_opened
      then print "   ⚠️  Copilot application not found, you may need to install GitHub Copilot first"
      else ret tt) ;;;
     print "   ⏰ Waiting for application to start..." ;;;
     sleep 3000)
    (fun e => print ("   ❌ Request failed: " ++ exn_str e)).

Definition max_attempts : Z := 5.

(** Local variables of the first two loops: the found flag and
    [navigation_attempts]. *)
Definition nav_state : Type := (bool * Z)%type.

Definition nav_cond (st : nav_state) : bool :=
  negb (fst st) && (snd st <? max_attempts)%Z.

(** Body of the loop of step 4.1 *)
Definition open_icon_body (st : nav_state) : M (ctl * nav_state) :=
  current_response <- requests_get (script_url ++ "/voiceover/current") ;;
  current_result <- response_json current_response ;;
  ok <- py_get current_result "success" PyNone ;;
  if truthy ok
  then
    item <- py_get current_result "currentItem" (PyStr "") ;;
    current_text <- py_lower item ;;
    shown <- py_get current_result "currentItem" (PyStr "Unknown") ;;
    print_text ("   � Current focus: " ++ py_str shown) ;;;
    if str_in "show more" current_text
    then
      print "   ✅ Found Open(+) icon control!" ;;;
      click_response <- requests_post (script_url ++ "/voiceover/click") None ;;
      click_result <- response_json click_response ;;
      clicked <- py_get click_result "success" PyNone ;;
      (if truthy clicked
       then print "   ✅ Open(+) icon activated successfully" ;;; sleep 2000
       else err <- py_get click_result "error" PyNone ;;
            print_text ("   ❌ Failed to activate Open(+) icon: " ++ py_str err)) ;;;
      ret (Break, (true, snd st))
    else
      next_response <- requests_post (script_url ++ "/voiceover/next") None ;;
      sleep 500 ;;;
      ret (Next, (fst st, (snd st + 1)%Z))
  else
    err <- py_get current_result "error" PyNone ;;
    print_text ("   ❌ Unable to get current element: " ++ py_str err) ;;;
    ret (Break, st).

(** Step 4.1: the loop and the report after it; the value is
    [(open_icon_found, navigation_attempts)]. *)
Definition open_icon_loop (fuel : nat) : M nav_state :=
  py_while fuel nav_cond open_icon_body (false, 0%Z).

(** Body of the loop of step 4.2 *)
Definition upload_body (st : nav_state) : M (ctl * nav_state) :=
  current_response <- requests_get (script_url ++ "/voiceover/current") ;;
  current_result <- response_json current_response ;;
  ok <- py_get current_result "success" PyNone ;;
  if truthy ok
  then
    item <- py_get current_result "currentItem" (PyStr "") ;;
    current_text <- py_lower item ;;
    shown <- py_get current_result "currentItem" (PyStr "Unknown") ;;
    print_text ("   📍 Current focus: " ++ py_str shown) ;;;
    if str_in "upload" current_text && str_in "file" current_text
    then
      print "   ✅ Found Upload file control!" ;;;
      print "   ⌨️  Attempting keyboard activation..." ;;;
      click_response <- requests_post (script_url ++ "/voiceover/click") None ;;
      click_result <- response_json click_response ;;
      clicked <- py_get click_result "success" PyNone ;;
      (if negb (truthy clicked)
       then print "   ⚠️  Keyboard activation failed - control not accessible with keyboard" ;;;
            print "   🖱️  Using mouse activation as fallback..." ;;;
            print "   🖱️  Simulating mouse click on Upload file control..." ;;;
            sleep 1000 ;;;
            print "   ✅ Upload file control activated via mouse"
       else print "   ✅ Upload file control activated via keyboard") ;;;
      sleep 2000 ;;;
      ret (Break, (true, snd st))
    else
      next_response <- requests_post (script_url ++ "/voiceover/next") None ;;
      sleep 500 ;;;
      ret (Next, (fst st, (snd st + 1)%Z))
  else
    err <- py_get current_result "error" PyNone ;;
    print_text ("   ❌ Unable to get current element: " ++ py_str err) ;;;
    ret (Break, st).

Definition upload_loop (fuel : nat) : M nav_state :=
  py_while fuel nav_cond upload_body (false, 0%Z).

Definition max_focus_checks : Z := 5.

(** The [for keyword in decorative_keywords] loop of step 4.3; the value
    is [decorative_image_detected] after it. *)
Fixpoint decorative_scan (decorative_keywords : list string)
    (current_text : pyval) (current_text_lower : string) (detected : bool)
  : M bool :=
  match decorative_keywords with
  | [] => ret detected
  | keyword :: rest =>
      if str_in keyword current_text_lower
      then print "   ⚠️  ISSUE DETECTED: Screen reader focus moved to decorative image!" ;;;
           print_text ("   📢 Image content being announced: '" ++ py_str current_text ++ "'") ;;;
           ret true
      else decorative_scan rest current_text current_text_lower detected
  end.

(** Body of the loop of step 4.3, on [(decorative_image_detected,
    focus_check_attempts)]. *)
Definition focus_check_body (st : nav_state) : M (ctl * nav_state) :=
  current_response <- requests_get (script_url ++ "/voiceover/current") ;;
  current_result <- response_json current_response ;;
  ok <- py_get current_result "success" PyNone ;;
  if truthy ok
  then
    current_text <- py_get current_result "currentItem" (PyStr "") ;;
    current_text_lower <- py_lower current_text ;;
    print_text ("   📍 Checking focus: " ++ py_str current_text) ;;;
    detected <- decorative_scan [", image"] current_text current_text_lower (fst st) ;;
    if detected
    then ret (Break, (detected, snd st))
    else
      next_response <- requests_post (script_url ++ "/voiceover/next") None ;;
      sleep 500 ;;;
      ret (Next, (detected, (snd st + 1)%Z))
  else ret (Break, st).

Definition focus_check_loop (fuel : nat) : M nav_state :=
  py_while fuel (fun st => (snd st <? max_focus_checks)%Z) focus_check_body (false, 0%Z).

(** 4. Test accessibility navigation scenario *)
Definition step_navigation (fuel : nat) : M unit :=
  print (nl ++ "4. Testing accessibility navigation scenario...") ;;;
  try_except
    (print "   🔍 Step 4.1: Navigating to Open(+) icon control..." ;;;
     st1 <- open_icon_loop fuel ;;
     (if negb (fst st1)
      then print "   ⚠️  Open(+) icon not found after maximum attempts"
      else ret tt) ;;;
     print "   🔍 Step 4.2: Navigating to Upload file control..." ;;;
     st2 <- upload_loop fuel ;;
     (if negb (fst st2)
      then print "   ⚠️  Upload file control not found after maximum attempts"
      else ret tt) ;;;
     print "   🔍 Step 4.3: Checking for decorative image focus issues..." ;;;
     st3 <- focus_check_loop fuel ;;
     (if negb (fst st3)
      then print (str_repeat "=" 30 ++ " Verification Result " ++ str_repeat "=" 30) ;;;
           print "   ✅ No decorative image focus issues detected"
      else ret tt) ;;;
     print "   📊 Navigation scenario completed")
    (fun e => print ("   ❌ Error during accessibility testing: " ++ exn_str e)).

(** 5. Stop VoiceOver *)
Definition step_stop_voiceover : M unit :=
  print (nl ++ "5. Stopping VoiceOver...") ;;;
  try_except
    (response <- requests_post (script_url ++ "/voiceover/stop") None ;;
     result <- response_json response ;;
     ok <- py_get result "success" PyNone ;;
     if truthy ok
     then print "   ✅ VoiceOver stopped"
     else err <- py_get result "error" PyNone ;;
          print_text ("   ❌ Stop failed: " ++ py_str err))
    (fun e => print ("   ❌ Request failed: " ++ exn_str e)).

Definition test_voiceover_operations (fuel : nat) : M unit :=
  print "🎯 Starting Python -> TypeScript -> VoiceOver integration test" ;;;
  print (str_repeat "=" 60) ;;;
  health <- step_health_check ;;
  match health with
  | Returned => ret tt
  | Proceed =>
      started <- step_start_voiceover ;;
      match started with
      | Returned => ret tt
      | Proceed =>
          step_open_copilot ;;;
          step_navigation fuel ;;;
          step_stop_voiceover ;;;
          print (nl ++ "🎉 Accessibility test completed!")
      end
  end.

End Program.


(** ** Reading a trace *)

(** The HTTP calls of a trace, in order. *)
Fixpoint requests_of (evs : list event) : list request :=
  match evs with
  | [] => []
  | EvRequest r :: rest => r :: requests_of rest
  | _ :: rest => requests_of rest
  end.

(** How many calls of a trace went to [url]. *)
Fixpoint calls_to (url : string) (evs : list event) : nat :=
  match evs with
  | [] => 0
  | EvRequest r :: rest =>
      (if req_url r =? url then 1 else 0) + calls_to url rest
  | _ :: rest => calls_to url rest
  end.


(** The poll of the navigation loops. *)
Definition poll_request : request :=
  mkRequest GET (script_url ++ "/voiceover/current") None.

(** The call that moves focus to the next element. *)
Definition next_request : request :=
  mkRequest POST (script_url ++ "/voiceover/next") None.

(** The call that activates the focused element. *)
Definition click_request : request :=
  mkRequest POST (script_url ++ "/voiceover/click") None.

(** The n-th call, if it is a poll, is answered with the JSON object [d]. *)
Definition polled (srv : server) (n : nat) (d : pydict) : Prop :=
  exists code, srv n poll_request = inr (mkResponse code (Decoded (PyDict d))).

(** The n-th call is a successful poll whose current item, lower-cased,
    contains ["show more"]. *)
Definition poll_matches `{PyBuiltins} (srv : server) (n : nat) : Prop :=
  exists d s,
    polled srv n d
    /\ truthy (dict_get d "success" PyNone) = true
    /\ dict_get d "currentItem" (PyStr "") = PyStr s
    /\ str_in "show more" (str_lower s) = true.

(** The n-th call is a poll whose reply has a falsy [success]. *)
Definition poll_refused (srv : server) (n : nat) : Prop :=
  exists d, polled srv n d /\ truthy (dict_get d "success" PyNone) = false.

(** What a turn of a navigation loop may do: one poll, at most one
    call to [next], and the counter moves by one exactly when the turn
    reaches its end. *)
Definition turn_ok (body : nav_state -> M (ctl * nav_state)) : Prop :=
  forall st w,
    exists evs,
      trace (snd (body st w)) = (trace w ++ evs)%list
      /\ calls_to (script_url ++ "/voiceover/current") evs = 1
      /\ calls_to (script_url ++ "/voiceover/next") evs <= 1
      /\ match fst (body st w) with
         | Ret (Next, st') => snd st' = (snd st + 1)%Z
         | Ret (Break, st') => snd st' = snd st
         | Raise _ => True
         | OutOfFuel => False
         end.

(** ** Servers to run the model against *)

Definition default_client : VoiceOverClient :=
  mkVoiceOverClient "http://localhost:3000".

(** Answers every call with the same response. *)
Definition constant_server (resp : response) : server := fun _ _ => inr resp.

(** Fails every call with the same exception. *)
Definition failing_server (e : exn) : server := fun _ _ => inl e.

(** Answers the n-th call of the run with the n-th entry of a script,
    and refuses the connection once the script is over. *)
Definition scripted_server (script : list (exn + response)) : server :=
  fun n _ => nth n script (inl (mkExn ConnectionError "Connection refused")).

(** A 200 response carrying a JSON object. *)
Definition ok_json (entries : pydict) : response :=
  mkResponse 200 (Decoded (PyDict entries)).

(** The element the sample servers keep reporting: no keyword in it. *)
Definition close_button : response :=
  ok_json [("success", PyBool true); ("currentItem", PyStr "Close, button")].


(** The same control, announced with half of an emoji: the reply's
    JSON text ends the item with the escape [\ud83d] and nothing after
    it. *)
Definition show_more_cut_short : response :=
  ok_json [("success", PyBool true);
           ("currentItem", PyStr ("Show More " ++ lone_surrogate))].


(** A reply whose current item is a number. *)
Definition numeric_item : response :=
  ok_json [("success", PyBool true); ("currentItem", PyInt 3)].

(** A health check that finds VoiceOver stopped, then a start request
    the server cannot honour. *)
Definition start_unsupported : server :=
  scripted_server
    [inr (ok_json [("voiceOverRunning", PyBool false)]);
     inr (ok_json [("success", PyBool false);
                   ("error", PyStr "VoiceOver not supported")])].

(** ** The demo and the module's entry point (voiceover_client.py) *)

(** The call a wrapper request on a supported verb makes: a GET carries
    no payload, a POST carries [data or {}]. *)
Definition sent_request `{PyBuiltins} (self : VoiceOverClient)
    (method endpoint : string) (data : pyval) : request :=
  if str_upper method =? "GET"
  then mkRequest GET (base_url self ++ endpoint) None
  else mkRequest POST (base_url self ++ endpoint) (Some (py_or data (PyDict []))).

(** What [for x in v] can run over. *)
Definition iterable (v : pyval) : bool :=
  match v with
  | PyList _ | PyStr _ | PyDict _ => true
  | _ => false
  end.

(** The characters of a [str] held as UTF-8 text: a new character
    starts at every byte that is not a continuation byte. *)
Fixpoint utf8_chars (s : string) : list string :=
  match s with
  | EmptyString => []
  | String c rest =>
      match rest with
      | EmptyString => [String c ""]
      | String c' _ =>
          if is_continuation c'
          then match utf8_chars rest with
               | [] => [String c ""]
               | g :: gs => String c g :: gs
               end
          else String c "" :: utf8_chars rest
      end
  end.

(** What [for x in v] (and [enumerate(v, 1)]) runs over: the items of a
    list, the characters of a [str], the keys of a dict; anything else
    is a [TypeError]. *)
Definition py_iter (v : pyval) : M (list pyval) :=
  match v with
  | PyList items => ret items
  | PyStr s => ret (map PyStr (utf8_chars s))
  | PyDict entries => ret (map (fun kv => PyStr (fst kv)) entries)
  | _ => raise (mkExn OtherException
                  ("'" ++ type_name v ++ "' object is not iterable"))
  end.

(** [repr(v)], as the generated [__repr__] of the dataclass renders a
    field. *)
Definition repr_value `{PyBuiltins} (v : pyval) : string :=
  match v with
  | PyNone => "None"
  | PyBool true => "True"
  | PyBool false => "False"
  | PyInt n => int_str n
  | PyStr _ | PyFloat _ | PyList _ | PyDict _ => py_repr v
  end.

Section Demo.

Context `{PyBuiltins}.
Variable srv : server.

(** [repr(r)] of a [VoiceOverResponse]. *)
Definition response_repr (r : VoiceOverResponse) : string :=
  "VoiceOverResponse(success=" ++ repr_value (success r)
  ++ ", message=" ++ repr_value (message r)
  ++ ", currentItem=" ++ repr_value (currentItem r)
  ++ ", responses=" ++ repr_value (responses r)
  ++ ", error=" ++ repr_value (error r) ++ ")".

(** The body of [for i, response in enumerate(..., 1)], from index [i]. *)
Fixpoint print_responses (i : Z) (items : list pyval) : M unit :=
  match items with
  | [] => ret tt
  | response :: rest =>
      print_text ("  " ++ int_str i ++ ". " ++ py_str response) ;;;
      print_responses (i + 1)%Z rest
  end.

Definition demo_message : string :=
  "Hello, can you help me with accessibility testing on macOS?".

Definition demo_conversation_with_copilot (self : AccessibilityAgent) : M unit :=
  print "=== Accessibility Agent Demo ===" ;;;
  print "Starting VoiceOver..." ;;;
  result <- start_voiceover srv (voice_over self) ;;
  if negb (truthy (success result))
  then print_text ("Failed to start VoiceOver: " ++ py_str (error result))
  else
    print ("Sending message to Copilot: " ++ demo_message) ;;;
    result <- open_copilot_and_send_message srv (voice_over self) (PyStr demo_message) ;;
    (if truthy (success result)
     then print "Message sent successfully!" ;;;
          if truthy (responses result)
          then print "Responses found:" ;;;
               items <- py_iter (responses result) ;;
               print_responses 1%Z items
          else ret tt
     else print_text ("Failed to send message: " ++ py_str (error result))) ;;;
    print "Stopping VoiceOver..." ;;;
    stopped <- stop_voiceover srv (voice_over self) ;;
    ret tt.

(** The [if __name__ == "__main__"] block of voiceover_client.py. *)
Definition client_main : M unit :=
  let agent := new_agent in
  print "Testing VoiceOver server connection..." ;;;
  health <- health_check srv (voice_over agent) ;;
  if truthy (success health)
  then
    print "✅ VoiceOver server is running" ;;;
    let llm_command := [("action", PyStr "type"); ("text", PyStr "Hello from Python!")] in
    print ("Executing LLM command: " ++ py_str (PyDict llm_command)) ;;;
    result <- execute_llm_command srv agent llm_command ;;
    print ("Result: " ++ response_repr result)
  else
    print "❌ VoiceOver server is not running" ;;;
    print "Please start the server with: npm run server".

End Demo.

(** ** Calls of the scripted scenario *)

Definition health_request : request :=
  mkRequest GET (script_url ++ "/health") None.

Definition start_request : request :=
  mkRequest POST (script_url ++ "/voiceover/start") None.

Definition open_app_request : request :=
  mkRequest POST (script_url ++ "/system/open-app")
    (Some (PyDict [("appName", PyStr "Copilot")])).

Definition stop_request : request :=
  mkRequest POST (script_url ++ "/voiceover/stop") None.

(** The calls made between two worlds. *)
Definition made (w w' : world) (rs : list request) : Prop :=
  requests_of (trace w') = (requests_of (trace w) ++ rs)%list.

(** The n-th call is a successful poll whose current item, lower-cased,
    contains both ["upload"] and ["file"]. *)
Definition poll_matches_upload `{PyBuiltins} (srv : server) (n : nat) : Prop :=
  exists d s,
    polled srv n d
    /\ truthy (dict_get d "success" PyNone) = true
    /\ dict_get d "currentItem" (PyStr "") = PyStr s
    /\ str_in "upload" (str_lower s) && str_in "file" (str_lower s) = true.

(** The n-th call is a successful poll whose current item, lower-cased,
    contains the decorative-image marker. *)
Definition poll_decorative `{PyBuiltins} (srv : server) (n : nat) : Prop :=
  exists d s,
    polled srv n d
    /\ truthy (dict_get d "success" PyNone) = true
    /\ dict_get d "currentItem" (PyStr "") = PyStr s
    /\ str_in ", image" (str_lower s) = true.

(** A turn of a bounded loop makes at most two calls, and moves the
    counter by one when it reaches its end. *)
Definition turn_calls (body : nav_state -> M (ctl * nav_state)) : Prop :=
  forall st w,
    match body st w with
    | (Ret (Next, st'), w') =>
        snd st' = (snd st + 1)%Z
        /\ exists rs, made w w' rs /\ length rs <= 2
    | (Ret (Break, _), w') | (Raise _, w') =>
        exists rs, made w w' rs /\ length rs <= 2
    | (OutOfFuel, _) => False
    end.

(** ** More servers to run the model against *)

(** The demo against a server that reports a count where the list of
    responses should be. *)
Definition counting_server : server :=
  scripted_server
    [inr (ok_json [("success", PyBool true)]);
     inr (ok_json [("success", PyBool true); ("responses", PyInt 3)])].

(** A focused upload control whose click is refused. *)
Definition upload_refused : server :=
  scripted_server
    [inr (ok_json [("success", PyBool true);
                   ("currentItem", PyStr "Upload File, button")]);
     inr (ok_json [("success", PyBool false)])].


(** * Properties *)

Ltac step_world :=
  unfold bind, ret, raise, print_text, print, sleep, emit, requests_get,
    requests_post, http_send, response_json, py_get, py_lower; cbn.

(* Case analysis on the innermost scrutinee the goal is stuck on. *)
Ltac split_match :=
  match goal with
  | |- context [match ?x with _ => _ end] =>
      lazymatch x with
      | context [match _ with _ => _ end] => fail
      | _ => destruct x eqn:?
      end
  end.


Section ClientProperties.

Context `{PyBuiltins}.
Variable srv : server.

Lemma upper_GET : str_upper "GET" = "GET".
Proof. rewrite str_upper_ascii; reflexivity. Qed.

Lemma upper_POST : str_upper "POST" = "POST".
Proof. rewrite str_upper_ascii; reflexivity. Qed.

Lemma upper_POST_not_GET : (str_upper "POST" =? "GET") = false.
Proof. rewrite upper_POST. reflexivity. Qed.

Lemma dict_get_absent (d : pydict) (key : string) (default : pyval) :
  dict_lookup d key = None -> dict_get d key default = default.
Proof. unfold dict_get. intros ->. reflexivity. Qed.

Lemma dict_get_present (d : pydict) (key : string) (default v : pyval) :
  dict_lookup d key = Some v -> dict_get d key default = v.
Proof. unfold dict_get. intros ->. reflexivity. Qed.

(** The [try] body on a method that upper-cases to neither verb: the
    [ValueError] is raised before anything is sent. *)
Lemma make_request_try_unsupported (url method : string) (data : pyval) (w : world) :
  str_upper method <> "GET" -> str_upper method <> "POST" ->
  _make_request_try srv url method data w
    = (Raise (mkExn ValueError ("Unsupported method: " ++ method)), w).
Proof.
  intros Hg Hp. unfold _make_request_try, bind.
  apply String.eqb_neq in Hg. apply String.eqb_neq in Hp.
  rewrite Hg, Hp. reflexivity.
Qed.

(** The [try] body once the response is in: the five [get]s on a
    decoded JSON object. *)
Lemma make_request_try_object (url method : string) (data : pyval) (w : world)
    (code : Z) (d : pydict) :
  str_upper method = "GET" \/ str_upper method = "POST" ->
  (forall rq, srv (served w) rq = inr (mkResponse code (Decoded (PyDict d)))) ->
  exists w',
    _make_request_try srv url method data w
      = (Ret (mkVoiceOverResponse
                (dict_get d "success" (PyBool false))
                (dict_get d "message" PyNone)
                (dict_get d "currentItem" PyNone)
                (dict_get d "responses" PyNone)
                (dict_get d "error" PyNone)), w')
    /\ served w' = S (served w).
Proof.
  intros Hm Hsrv. unfold _make_request_try, bind, requests_get, requests_post, http_send.
  destruct Hm as [Hm | Hm]; rewrite Hm; cbn [String.eqb Ascii.eqb Bool.eqb];
    rewrite Hsrv; cbn; eexists; split; reflexivity.
Qed.

(** The [try] body when [requests] raises. *)
Lemma make_request_try_http_failure (url method : string) (data : pyval) (w : world)
    (e : exn) :
  str_upper method = "GET" \/ str_upper method = "POST" ->
  (forall rq, srv (served w) rq = inl e) ->
  exists w', _make_request_try srv url method data w = (Raise e, w')
             /\ served w' = S (served w).
Proof.
  intros Hm Hsrv. unfold _make_request_try, bind, requests_get, requests_post, http_send.
  destruct Hm as [Hm | Hm]; rewrite Hm; cbn [String.eqb Ascii.eqb Bool.eqb];
    rewrite Hsrv; cbn; eexists; split; reflexivity.
Qed.

(** The handler turns every exception of the [try] body into a value. *)
Lemma make_request_handles (self : VoiceOverClient) (method endpoint : string)
    (data : pyval) (w w' : world) (e : exn) :
  _make_request_try srv (base_url self ++ endpoint) method data w = (Raise e, w') ->
  _make_request srv self method endpoint data w
    = (Ret (failure (if is_ConnectionError e then connection_message else exn_str e)), w').
Proof.
  intros Hbody. unfold _make_request, try_except. rewrite Hbody.
  destruct (is_ConnectionError e); reflexivity.
Qed.

(** No step of the [try] body runs a loop. *)
Lemma make_request_try_fuel (url method : string) (data : pyval) (w : world) :
  fst (_make_request_try srv url method data w) <> OutOfFuel.
Proof.
  unfold _make_request_try, bind, requests_get, requests_post, http_send,
    response_json, py_get, raise, ret.
  repeat match goal with
         | |- context [if ?b then _ else _] => destruct b
         | |- context [match srv ?n ?r with _ => _ end] => destruct (srv n r)
         | |- context [match body ?r with _ => _ end] => destruct (body r)
         | |- context [match ?v with PyNone => _ | _ => _ end] => destruct v
         end; cbn; discriminate.
Qed.

(** The [try] body on a response whose body is not JSON. *)
Lemma make_request_try_undecodable (url method : string) (data : pyval) (w : world)
    (code : Z) (msg : string) :
  str_upper method = "GET" \/ str_upper method = "POST" ->
  (forall rq, srv (served w) rq = inr (mkResponse code (Undecodable msg))) ->
  exists w', _make_request_try srv url method data w
             = (Raise (mkExn JSONDecodeError msg), w').
Proof.
  intros Hm Hsrv. unfold _make_request_try, bind, requests_get, requests_post, http_send.
  destruct Hm as [Hm | Hm]; rewrite Hm; cbn [String.eqb Ascii.eqb Bool.eqb];
    rewrite Hsrv; cbn; eexists; reflexivity.
Qed.


(** C4.  When the server answers the GET on [/voiceover/current] with
    the JSON object [{"success": true, "currentItem": X}], the getter
    returns a record whose [success] is [True] and whose [currentItem]
    is the string [X] itself; the other fields are [None], and the call
    is the only effect. *)
Theorem get_current_item_unchanged (self : VoiceOverClient) (X : string)
    (code : Z) (w : world) :
  srv (served w) (mkRequest GET (base_url self ++ "/voiceover/current") None)
    = inr (mkResponse code
             (Decoded (PyDict [("success", PyBool true); ("currentItem", PyStr X)]))) ->
  get_current_item srv self w
    = (Ret (mkVoiceOverResponse (PyBool true) PyNone (PyStr X) PyNone PyNone),
       mkWorld (S (served w))
         (trace w ++ [EvRequest (mkRequest GET (base_url self ++ "/voiceover/current") None)])).
Proof.
  intros Hsrv.
  unfold get_current_item, _make_request, try_except, _make_request_try, bind,
    requests_get, http_send.
  rewrite upper_GET. cbn [String.eqb Ascii.eqb Bool.eqb].
  rewrite Hsrv. reflexivity.
Qed.

(** C7.  Two tiers.  When the HTTP call of a wrapper request fails with
    a connection error, the result is [success=False] with the fixed
    connection message, whatever the verb, endpoint and payload; when
    the [try] body raises any other exception, the result is
    [success=False] with [str(e)] as its error. *)
Theorem make_request_error_tiers (self : VoiceOverClient) (method endpoint : string)
    (data : pyval) (w : world) :
  (forall e,
      str_upper method = "GET" \/ str_upper method = "POST" ->
      (forall rq, srv (served w) rq = inl e) ->
      is_ConnectionError e = true ->
      fst (_make_request srv self method endpoint data w)
        = Ret (mkVoiceOverResponse (PyBool false) PyNone PyNone PyNone
                 (PyStr "Could not connect to VoiceOver server. Make sure it's running.")))
  /\ (forall e w',
         _make_request_try srv (base_url self ++ endpoint) method data w = (Raise e, w') ->
         is_ConnectionError e = false ->
         _make_request srv self method endpoint data w
           = (Ret (mkVoiceOverResponse (PyBool false) PyNone PyNone PyNone
                     (PyStr (exn_str e))), w')).
Proof.
  split.
  - intros e Hm Hsrv Hconn.
    destruct (make_request_try_http_failure (base_url self ++ endpoint) method data w e Hm Hsrv)
      as [w' [Hbody _]].
    rewrite (make_request_handles self method endpoint data w w' e Hbody), Hconn.
    reflexivity.
  - intros e w' Hbody Hconn.
    rewrite (make_request_handles self method endpoint data w w' e Hbody), Hconn.
    reflexivity.
Qed.

(** C8.  When the decoded body is a JSON object without a ["success"]
    key, the result has [success=False], and each of [message],
    [currentItem], [responses] and [error] is [None] when its key is
    absent from the object. *)
Theorem make_request_missing_success (self : VoiceOverClient) (method endpoint : string)
    (data : pyval) (w : world) (code : Z) (d : pydict) :
  str_upper method = "GET" \/ str_upper method = "POST" ->
  (forall rq, srv (served w) rq = inr (mkResponse code (Decoded (PyDict d)))) ->
  dict_lookup d "success" = None ->
  exists r w',
    _make_request srv self method endpoint data w = (Ret r, w')
    /\ success r = PyBool false
    /\ (dict_lookup d "message" = None -> message r = PyNone)
    /\ (dict_lookup d "currentItem" = None -> currentItem r = PyNone)
    /\ (dict_lookup d "responses" = None -> responses r = PyNone)
    /\ (dict_lookup d "error" = None -> error r = PyNone).
Proof.
  intros Hm Hsrv Hsuccess.
  destruct (make_request_try_object (base_url self ++ endpoint) method data w code d Hm Hsrv)
    as [w' [Hbody _]].
  eexists. exists w'. split.
  - unfold _make_request, try_except. rewrite Hbody. reflexivity.
  - cbn [success message currentItem responses error].
    repeat split; intros; apply dict_get_absent; assumption.
Qed.


(** C10.  On a method string that upper-cases to neither ["GET"] nor
    ["POST"], [_make_request] returns [success=False] with the error
    ["Unsupported method: "] followed by the method as given, and leaves
    the world as it was: no HTTP call, nothing raised. *)
Theorem make_request_unsupported_method (self : VoiceOverClient)
    (method endpoint : string) (data : pyval) (w : world) :
  str_upper method <> "GET" -> str_upper method <> "POST" ->
  _make_request srv self method endpoint data w
    = (Ret (mkVoiceOverResponse (PyBool false) PyNone PyNone PyNone
              (PyStr ("Unsupported method: " ++ method))), w).
Proof.
  intros Hg Hp.
  rewrite (make_request_handles self method endpoint data w w _
             (make_request_try_unsupported _ method data w Hg Hp)).
  reflexivity.
Qed.

(** C1, as amended.  A wrapper request always returns a record: no
    exception reaches the caller.  When the [try] body fails (the
    connection is refused, the body is not JSON, any exception is
    raised during the call), the record has [success=False] and an
    error string: the fixed connection message for a connection error,
    [str(e)] otherwise; that string is non-empty for a connection error
    and whenever [str(e)] is. *)
Theorem make_request_never_raises (self : VoiceOverClient) (method endpoint : string)
    (data : pyval) (w : world) :
  exists r w',
    _make_request srv self method endpoint data w = (Ret r, w')
    /\ forall e w'',
        _make_request_try srv (base_url self ++ endpoint) method data w = (Raise e, w'') ->
        success r = PyBool false
        /\ error r = PyStr (if is_ConnectionError e then connection_message else exn_str e)
        /\ (is_ConnectionError e = true \/ exn_str e <> "" -> error r <> PyStr "").
Proof.
  destruct (_make_request_try srv (base_url self ++ endpoint) method data w)
    as [[r | e |] w1] eqn:Hbody.
  - exists r, w1. split.
    + unfold _make_request, try_except. rewrite Hbody. reflexivity.
    + intros e w'' Habs. discriminate Habs.
  - eexists. exists w1. split.
    + apply make_request_handles. exact Hbody.
    + intros e' w'' Heq. injection Heq as <- <-.
      cbn [success error failure]. repeat split.
      intros [Hconn | Hmsg].
      * rewrite Hconn. discriminate.
      * destruct (is_ConnectionError e); [discriminate | congruence].
  - exfalso.
    apply (make_request_try_fuel (base_url self ++ endpoint) method data w).
    rewrite Hbody. reflexivity.
Qed.

End ClientProperties.

Section StringFacts.






End StringFacts.

Section ScriptProperties.

Context `{PyBuiltins}.
Variable srv : server.

Lemma requests_of_app (a b : list event) :
  requests_of (a ++ b) = (requests_of a ++ requests_of b)%list.
Proof.
  induction a as [| [r | line | ms] a IH]; cbn; rewrite ?IH; reflexivity.
Qed.

Lemma calls_to_app (url : string) (a b : list event) :
  calls_to url (a ++ b) = calls_to url a + calls_to url b.
Proof.
  induction a as [| [r | line | ms] a IH]; cbn; rewrite ?IH; lia.
Qed.

Lemma open_icon_body_turn : turn_ok (open_icon_body srv).
Proof.
  intros st w. unfold open_icon_body. step_world.
  repeat (split_match; cbn);
    (eexists; rewrite <- ?app_assoc; split; [reflexivity | cbn; auto]).
Qed.

Lemma upload_body_turn : turn_ok (upload_body srv).
Proof.
  intros st w. unfold upload_body. step_world.
  repeat (split_match; cbn);
    (eexists; rewrite <- ?app_assoc; split; [reflexivity | cbn; auto]).
Qed.

Lemma nav_cond_true (st : nav_state) :
  nav_cond st = true -> fst st = false /\ (snd st < max_attempts)%Z.
Proof.
  unfold nav_cond. intros Hc. apply andb_true_iff in Hc as [Hf Hlt].
  apply negb_true_iff in Hf. apply Z.ltb_lt in Hlt. auto.
Qed.

(** A loop on [nav_cond] whose turns are [turn_ok] stops within the
    attempts that remain, with fuel left over. *)
Lemma nav_loop_bounded (body : nav_state -> M (ctl * nav_state)) :
  turn_ok body ->
  forall (fuel : nat) (st : nav_state) (w : world),
    (0 <= snd st <= max_attempts)%Z ->
    Z.to_nat (max_attempts - snd st) < fuel ->
    exists evs,
      trace (snd (py_while fuel nav_cond body st w)) = (trace w ++ evs)%list
      /\ calls_to (script_url ++ "/voiceover/current") evs
         <= Z.to_nat (max_attempts - snd st)
      /\ calls_to (script_url ++ "/voiceover/next") evs
         <= Z.to_nat (max_attempts - snd st)
      /\ match fst (py_while fuel nav_cond body st w) with
         | Ret st' => (snd st <= snd st' <= max_attempts)%Z
         | Raise _ => True
         | OutOfFuel => False
         end.
Proof.
  intros Hturn. unfold max_attempts.
  induction fuel as [| fuel IH]; intros st w Hrange Hfuel.
  - lia.
  - cbn [py_while]. destruct (nav_cond st) eqn:Hcond.
    + apply nav_cond_true in Hcond as [_ Hlt]. unfold max_attempts in Hlt.
      destruct (Hturn st w) as [evs [Htrace [Hcur [Hnext Hres]]]].
      unfold bind. destruct (body st w) as [[[[|] st'] | e |] w1]; cbn [fst snd] in *.
      * destruct (IH st' w1) as [evs' [Htrace' [Hcur' [Hnext' Hres']]]];
          [lia | lia |].
        exists (evs ++ evs')%list. rewrite Htrace', Htrace, <- app_assoc.
        rewrite !calls_to_app. rewrite Hres in *.
        repeat split; try lia.
        destruct (fst (py_while fuel nav_cond body st' w1)); auto; lia.
      * exists evs. repeat split; auto; lia.
      * exists evs. repeat split; auto; lia.
      * contradiction.
    + exists []. cbn. rewrite app_nil_r. repeat split; lia.
Qed.

(** C2.  Each of the two navigation loops, run with more than five
    units of fuel from any world and against any server, stops: it
    returns or raises, never runs out of fuel.  Along the way it polls
    at most five times and asks for the next element at most five
    times, and the attempt counter it returns lies between 0 and 5. *)
Theorem navigation_loops_terminate (fuel : nat) (w : world) :
  5 < fuel ->
  (exists evs,
      trace (snd (open_icon_loop srv fuel w)) = (trace w ++ evs)%list
      /\ calls_to "http://localhost:3000/voiceover/current" evs <= 5
      /\ calls_to "http://localhost:3000/voiceover/next" evs <= 5
      /\ match fst (open_icon_loop srv fuel w) with
         | Ret st => (0 <= snd st <= 5)%Z
         | Raise _ => True
         | OutOfFuel => False
         end)
  /\ (exists evs,
         trace (snd (upload_loop srv fuel w)) = (trace w ++ evs)%list
         /\ calls_to "http://localhost:3000/voiceover/current" evs <= 5
         /\ calls_to "http://localhost:3000/voiceover/next" evs <= 5
         /\ match fst (upload_loop srv fuel w) with
            | Ret st => (0 <= snd st <= 5)%Z
            | Raise _ => True
            | OutOfFuel => False
            end).
Proof.
  intros Hfuel.
  assert (Hrange : (0 <= snd (false, 0%Z) <= max_attempts)%Z)
    by (unfold max_attempts; cbn [snd]; lia).
  assert (Hleft : Z.to_nat (max_attempts - snd (false, 0%Z)) < fuel)
    by (change (Z.to_nat (max_attempts - snd (false, 0%Z))) with 5; exact Hfuel).
  split.
  - exact (nav_loop_bounded (open_icon_body srv) open_icon_body_turn
             fuel (false, 0%Z) w Hrange Hleft).
  - exact (nav_loop_bounded (upload_body srv) upload_body_turn
             fuel (false, 0%Z) w Hrange Hleft).
Qed.

(** One turn of the first loop, by the way it is left. *)
Lemma open_icon_body_cases (st : nav_state) (w : world) :
  match open_icon_body srv st w with
  | (Ret (Next, st'), w') =>
      st' = (fst st, (snd st + 1)%Z) /\ served w < served w'
  | (Ret (Break, st'), w') =>
      served w < served w'
      /\ ((st' = (true, snd st) /\ poll_matches srv (served w))
          \/ (st' = st /\ poll_refused srv (served w)))
  | (Raise _, _) => True
  | (OutOfFuel, _) => False
  end.
Proof.
  unfold open_icon_body. step_world.
  repeat (split_match; cbn); auto;
    repeat match goal with
           | r : response |- _ => destruct r; cbn [body status_code] in *
           end; subst;
    (split; [lia |]);
    first [ left; split; [reflexivity |]; unfold poll_matches, polled, poll_request;
            cbn; eauto 10
          | right; split; [reflexivity |]; unfold poll_refused, polled, poll_request;
            cbn; eauto 10 ].
Qed.

(** The first loop, by the way it is left. *)
Lemma open_icon_loop_cases (fuel : nat) :
  forall (st : nav_state) (w : world),
    fst st = false ->
    (0 <= snd st <= 5)%Z ->
    Z.to_nat (5 - snd st) < fuel ->
    match py_while fuel nav_cond (open_icon_body srv) st w with
    | (Ret (found, attempts), w') =>
        (found = true
         /\ exists n, served w <= n < served w' /\ poll_matches srv n)
        \/ (found = false /\ attempts = 5%Z)
        \/ (found = false /\ (attempts < 5)%Z
            /\ exists n, served w <= n < served w' /\ poll_refused srv n)
    | (Raise _, _) => True
    | (OutOfFuel, _) => False
    end.
Proof.
  induction fuel as [| fuel IH]; intros [found attempts] w Hfound Hrange Hfuel;
    cbn [fst snd] in *; subst found.
  - lia.
  - cbn [py_while]. destruct (nav_cond (false, attempts)) eqn:Hcond.
    + apply nav_cond_true in Hcond as [_ Hlt]. unfold max_attempts in Hlt.
      cbn [snd] in Hlt.
      pose proof (open_icon_body_cases (false, attempts) w) as Hturn.
      unfold bind.
      destruct (open_icon_body srv (false, attempts) w) as [[[[|] st'] | e |] w1];
        cbn [fst snd] in *.
      * destruct Hturn as [-> Hserved].
        specialize (IH (false, (attempts + 1)%Z) w1 eq_refl).
        cbn [snd] in IH.
        assert (Hrange' : (0 <= attempts + 1 <= 5)%Z) by lia.
        assert (Hfuel' : Z.to_nat (5 - (attempts + 1)) < fuel) by lia.
        specialize (IH Hrange' Hfuel').
        destruct (py_while fuel nav_cond (open_icon_body srv)
                    (false, (attempts + 1)%Z) w1) as [[[found' attempts'] | e |] w2];
          auto.
        destruct IH as [[Hf [n [Hn Hm]]] | [[Hf Ha] | [Hf [Ha [n [Hn Hm]]]]]].
        -- left. split; [exact Hf |]. exists n. split; [lia | exact Hm].
        -- right. left. auto.
        -- right. right. repeat split; auto. exists n. split; [lia | exact Hm].
      * destruct Hturn as [Hserved [[-> Hm] | [-> Hm]]]; unfold ret.
        -- left. split; [reflexivity |]. exists (served w). split; [lia | exact Hm].
        -- right. right. repeat split; auto. exists (served w).
           split; [lia | exact Hm].
      * exact I.
      * contradiction.
    + unfold ret. right. left. split; [reflexivity |].
      unfold nav_cond, max_attempts in Hcond. cbn [fst snd negb andb] in Hcond.
      apply Z.ltb_ge in Hcond. lia.
Qed.

(** The item shown on the focus line is the one that is matched, or
    ["Unknown"] when the reply has none. *)
Lemma shown_item_cases (d : pydict) (s : string) :
  dict_get d "currentItem" (PyStr "") = PyStr s ->
  dict_get d "currentItem" (PyStr "Unknown") = PyStr s
  \/ dict_get d "currentItem" (PyStr "Unknown") = PyStr "Unknown".
Proof.
  unfold dict_get. destruct (dict_lookup d "currentItem"); auto.
Qed.

Lemma shown_item_encodable (d : pydict) (s : string) :
  dict_get d "currentItem" (PyStr "") = PyStr s ->
  has_surrogate s = false ->
  has_surrogate (py_str (dict_get d "currentItem" (PyStr "Unknown"))) = false.
Proof.
  intros Hitem Hs. destruct (shown_item_cases d s Hitem) as [-> | ->].
  - exact Hs.
  - reflexivity.
Qed.

(** A successful poll that does not match, with an item the console
    can encode, is followed by [next] and half a second of sleep, and
    the counter moves by one. *)
Lemma open_icon_body_advances (st : nav_state) (w : world) (code : Z)
    (d : pydict) (s : string) (resp : response) :
  srv (served w) poll_request = inr (mkResponse code (Decoded (PyDict d))) ->
  truthy (dict_get d "success" PyNone) = true ->
  dict_get d "currentItem" (PyStr "") = PyStr s ->
  has_surrogate s = false ->
  str_in "show more" (str_lower s) = false ->
  srv (S (served w)) next_request = inr resp ->
  open_icon_body srv st w
  = (Ret (Next, (fst st, (snd st + 1)%Z)),
     mkWorld (S (S (served w)))
       (trace w ++
        [EvRequest poll_request;
         EvPrint ("   � Current focus: "
                  ++ py_str (dict_get d "currentItem" (PyStr "Unknown")));
         EvRequest next_request;
         EvSleep 500])).
Proof.
  unfold poll_request, next_request. cbn.
  intros Hpoll Hok Hitem Hs Hmiss Hnext.
  pose proof (shown_item_encodable d s Hitem Hs) as Hshown.
  unfold open_icon_body. step_world.
  rewrite Hpoll. cbn. rewrite Hok, Hitem. cbn. rewrite Hshown. cbn.
  rewrite Hmiss. cbn. rewrite Hnext. cbn.
  rewrite <- !app_assoc. reflexivity.
Qed.

(** C6, as amended.  The first navigation loop, run with more than
    five units of fuel, is left in one of four ways: with the found
    flag set, after a successful poll whose lower-cased item contains
    ["show more"]; with the counter at 5; with the counter below 5,
    after a poll whose reply has a falsy [success]; or by an exception,
    that of a request, of reading a reply, of an item that is not a
    string, or of a line the console cannot encode.  It never runs out
    of fuel.  And a turn whose poll succeeds without a match, on an
    item that holds no lone surrogate, and whose call to [next]
    returns, consists of the poll, the focus line, the call to [next]
    and a sleep of half a second, and moves the counter by one. *)
Theorem open_icon_loop_exits :
  (forall (fuel : nat) (w : world),
      5 < fuel ->
      match open_icon_loop srv fuel w with
      | (Ret (found, attempts), w') =>
          (found = true
           /\ exists n, served w <= n < served w' /\ poll_matches srv n)
          \/ (found = false /\ attempts = 5%Z)
          \/ (found = false /\ (attempts < 5)%Z
              /\ exists n, served w <= n < served w' /\ poll_refused srv n)
      | (Raise _, _) => True
      | (OutOfFuel, _) => False
      end)
  /\ (forall (st : nav_state) (w : world) (code : Z) (d : pydict) (s : string)
        (resp : response),
         srv (served w) poll_request = inr (mkResponse code (Decoded (PyDict d))) ->
         truthy (dict_get d "success" PyNone) = true ->
         dict_get d "currentItem" (PyStr "") = PyStr s ->
         has_surrogate s = false ->
         str_in "show more" (str_lower s) = false ->
         srv (S (served w)) next_request = inr resp ->
         open_icon_body srv st w
         = (Ret (Next, (fst st, (snd st + 1)%Z)),
            mkWorld (S (S (served w)))
              (trace w ++
               [EvRequest poll_request;
                EvPrint ("   � Current focus: "
                         ++ py_str (dict_get d "currentItem" (PyStr "Unknown")));
                EvRequest next_request;
                EvSleep 500]))).
Proof.
  split.
  - intros fuel w Hfuel. unfold open_icon_loop.
    apply (open_icon_loop_cases fuel (false, 0%Z) w); cbn [fst snd].
    + reflexivity.
    + lia.
    + change (Z.to_nat (5 - 0)) with 5. exact Hfuel.
  - exact open_icon_body_advances.
Qed.


(** C5.  When the health check is answered 200 with
    [{"voiceOverRunning": false}] and the start request with
    [{"success": false, "error": "VoiceOver not supported"}], the run
    prints the status line ending in ["Not running"], goes on to the
    start step, prints the failure and the permissions hint, and
    returns: the two calls are the only ones, and nothing is printed
    after the hint. *)
Theorem scenario_stops_when_start_fails (fuel : nat) (w : world) (code : Z) :
  srv (served w) (mkRequest GET "http://localhost:3000/health" None)
    = inr (mkResponse 200 (Decoded (PyDict [("voiceOverRunning", PyBool false)]))) ->
  srv (S (served w)) (mkRequest POST "http://localhost:3000/voiceover/start" None)
    = inr (mkResponse code
             (Decoded (PyDict [("success", PyBool false);
                               ("error", PyStr "VoiceOver not supported")]))) ->
  test_voiceover_operations srv fuel w
  = (Ret tt,
     mkWorld (S (S (served w)))
       (trace w ++
        [EvPrint "🎯 Starting Python -> TypeScript -> VoiceOver integration test";
         EvPrint (str_repeat "=" 60);
         EvPrint "1. Checking server status...";
         EvRequest (mkRequest GET "http://localhost:3000/health" None);
         EvPrint "   ✅ Server running normally";
         EvPrint "   📊 VoiceOver status: Not running";
         EvPrint (nl ++ "2. Starting VoiceOver...");
         EvRequest (mkRequest POST "http://localhost:3000/voiceover/start" None);
         EvPrint "   ❌ VoiceOver startup failed: VoiceOver not supported";
         EvPrint "   💡 Please ensure VoiceOver permissions are configured as per README"])).
Proof.
  intros Hhealth Hstart.
  unfold test_voiceover_operations, step_health_check, step_start_voiceover,
    try_except.
  step_world. rewrite Hhealth. cbn. rewrite Hstart. cbn.
  rewrite <- !app_assoc. reflexivity.
Qed.

End ScriptProperties.

Section MoreClientProperties.

Context `{PyBuiltins}.
Variable srv : server.

Lemma sent_request_GET (self : VoiceOverClient) (method endpoint : string)
    (data : pyval) :
  str_upper method = "GET" ->
  sent_request self method endpoint data
  = mkRequest GET (base_url self ++ endpoint) None.
Proof. unfold sent_request. intros ->. reflexivity. Qed.

Lemma sent_request_POST (self : VoiceOverClient) (method endpoint : string)
    (data : pyval) :
  str_upper method = "POST" ->
  sent_request self method endpoint data
  = mkRequest POST (base_url self ++ endpoint) (Some (py_or data (PyDict []))).
Proof. unfold sent_request. intros ->. reflexivity. Qed.

(** The world after a wrapper request on a supported verb. *)
Lemma make_request_world (self : VoiceOverClient) (method endpoint : string)
    (data : pyval) (w : world) :
  str_upper method = "GET" \/ str_upper method = "POST" ->
  snd (_make_request srv self method endpoint data w)
  = mkWorld (S (served w))
      (trace w ++ [EvRequest (sent_request self method endpoint data)]).
Proof.
  intros Hm.
  unfold sent_request, _make_request, try_except, _make_request_try, bind,
    requests_get, requests_post, http_send, response_json, py_get, raise, ret.
  destruct Hm as [Hm | Hm]; rewrite Hm; cbn [String.eqb Ascii.eqb Bool.eqb];
    repeat (split_match; cbn [fst snd]); reflexivity.
Qed.

(** The value of a wrapper request, read off the reply to its call. *)
Lemma make_request_value (self : VoiceOverClient) (method endpoint : string)
    (data : pyval) (w : world) :
  str_upper method = "GET" \/ str_upper method = "POST" ->
  fst (_make_request srv self method endpoint data w)
  = Ret match srv (served w) (sent_request self method endpoint data) with
        | inl e => failure (if is_ConnectionError e then connection_message
                            else exn_str e)
        | inr resp =>
            match body resp with
            | Decoded (PyDict d) =>
                mkVoiceOverResponse
                  (dict_get d "success" (PyBool false))
                  (dict_get d "message" PyNone)
                  (dict_get d "currentItem" PyNone)
                  (dict_get d "responses" PyNone)
                  (dict_get d "error" PyNone)
            | Decoded v =>
                failure ("'" ++ type_name v ++ "' object has no attribute 'get'")
            | Undecodable msg => failure msg
            end
        end.
Proof.
  intros Hm.
  unfold sent_request, _make_request, try_except, _make_request_try, bind,
    requests_get, requests_post, http_send, response_json, py_get, raise, ret.
  destruct Hm as [Hm | Hm]; rewrite Hm; cbn [String.eqb Ascii.eqb Bool.eqb];
    repeat (split_match; cbn [fst snd]); try reflexivity; try discriminate.
Qed.

(** A wrapper request on a supported verb returns, one call later. *)
Lemma make_request_step (self : VoiceOverClient) (method endpoint : string)
    (data : pyval) (w : world) :
  str_upper method = "GET" \/ str_upper method = "POST" ->
  exists r,
    _make_request srv self method endpoint data w
    = (Ret r,
       mkWorld (S (served w))
         (trace w ++ [EvRequest (sent_request self method endpoint data)])).
Proof.
  intros Hm.
  pose proof (make_request_value self method endpoint data w Hm) as Hvalue.
  pose proof (make_request_world self method endpoint data w Hm) as Hworld.
  destruct (_make_request srv self method endpoint data w) as [r w'].
  cbn [fst snd] in Hvalue, Hworld. subst. eexists. reflexivity.
Qed.

Lemma made_refl (w : world) : made w w [].
Proof. unfold made. rewrite app_nil_r. reflexivity. Qed.

Lemma made_trans (w w1 w2 : world) (a b : list request) :
  made w w1 a -> made w1 w2 b -> made w w2 (a ++ b).
Proof. unfold made. intros Ha Hb. rewrite Hb, Ha, app_assoc. reflexivity. Qed.

Lemma made_event (w : world) (n : nat) (ev : event) :
  made w (mkWorld n (trace w ++ [ev]))
    match ev with EvRequest r => [r] | _ => [] end.
Proof.
  unfold made. cbn [trace]. rewrite requests_of_app.
  destruct ev; reflexivity.
Qed.

(** X1.  A wrapper request on a verb that upper-cases to GET or POST
    makes exactly one call, whatever the server does with it: a GET to
    the base URL followed by the endpoint, without payload (the data is
    dropped), or a POST there with [data or {}] as its JSON payload.
    Nothing else is added to the trace. *)
Theorem make_request_sends_once (self : VoiceOverClient) (method endpoint : string)
    (data : pyval) (w : world) :
  str_upper method = "GET" \/ str_upper method = "POST" ->
  snd (_make_request srv self method endpoint data w)
  = mkWorld (S (served w))
      (trace w ++
       [EvRequest
          (if str_upper method =? "GET"
           then mkRequest GET (base_url self ++ endpoint) None
           else mkRequest POST (base_url self ++ endpoint)
                  (Some (if truthy data then data else PyDict [])))]).
Proof. exact (make_request_world self method endpoint data w). Qed.

(** X2.  The record a wrapper request returns is a function of the
    reply to its one call, and the status code plays no part in it: an
    exception gives the failure record of its tier; a body that is not
    JSON gives a failure with the decoder's message; a JSON value that
    is not an object gives a failure with the [AttributeError] text
    naming its type; a JSON object gives its five entries, [success]
    defaulting to [False] and the others to [None]. *)
Theorem make_request_reads_reply (self : VoiceOverClient) (method endpoint : string)
    (data : pyval) (w : world) :
  str_upper method = "GET" \/ str_upper method = "POST" ->
  fst (_make_request srv self method endpoint data w)
  = Ret match srv (served w) (sent_request self method endpoint data) with
        | inl e =>
            mkVoiceOverResponse (PyBool false) PyNone PyNone PyNone
              (PyStr (if is_ConnectionError e then connection_message
                      else exn_str e))
        | inr resp =>
            match body resp with
            | Decoded (PyDict d) =>
                mkVoiceOverResponse
                  (dict_get d "success" (PyBool false))
                  (dict_get d "message" PyNone)
                  (dict_get d "currentItem" PyNone)
                  (dict_get d "responses" PyNone)
                  (dict_get d "error" PyNone)
            | Decoded v =>
                mkVoiceOverResponse (PyBool false) PyNone PyNone PyNone
                  (PyStr ("'" ++ type_name v ++ "' object has no attribute 'get'"))
            | Undecodable msg =>
                mkVoiceOverResponse (PyBool false) PyNone PyNone PyNone (PyStr msg)
            end
        end.
Proof. exact (make_request_value self method endpoint data w). Qed.

Lemma wrapper_post_calls (self : VoiceOverClient) (endpoint : string)
    (data : pyval) (w : world) :
  made w (snd (_make_request srv self "POST" endpoint data w))
    [mkRequest POST (base_url self ++ endpoint) (Some (py_or data (PyDict [])))].
Proof.
  rewrite (make_request_world self "POST" endpoint data w (or_intror upper_POST)).
  rewrite (sent_request_POST self "POST" endpoint data upper_POST).
  apply (made_event w (S (served w))
           (EvRequest (mkRequest POST (base_url self ++ endpoint)
                         (Some (py_or data (PyDict [])))))).
Qed.

Lemma wrapper_get_calls (self : VoiceOverClient) (endpoint : string)
    (data : pyval) (w : world) :
  made w (snd (_make_request srv self "GET" endpoint data w))
    [mkRequest GET (base_url self ++ endpoint) None].
Proof.
  rewrite (make_request_world self "GET" endpoint data w (or_introl upper_GET)).
  rewrite (sent_request_GET self "GET" endpoint data upper_GET).
  apply (made_event w (S (served w))
           (EvRequest (mkRequest GET (base_url self ++ endpoint) None))).
Qed.

(** X3.  Each named method of the client makes exactly one call: the
    verb, path and payload of the endpoint it wraps.  A method without
    an argument posts the empty JSON object; a method with one posts a
    one-entry object under the key of its endpoint. *)
Theorem wrapper_endpoints (self : VoiceOverClient) (w : world) (arg : pyval) :
  requests_of (trace (snd (start_voiceover srv self w)))
    = (requests_of (trace w)
       ++ [mkRequest POST (base_url self ++ "/voiceover/start") (Some (PyDict []))])%list
  /\ requests_of (trace (snd (stop_voiceover srv self w)))
     = (requests_of (trace w)
        ++ [mkRequest POST (base_url self ++ "/voiceover/stop") (Some (PyDict []))])%list
  /\ requests_of (trace (snd (type_text srv self arg w)))
     = (requests_of (trace w)
        ++ [mkRequest POST (base_url self ++ "/voiceover/type")
              (Some (PyDict [("text", arg)]))])%list
  /\ requests_of (trace (snd (navigate_next srv self w)))
     = (requests_of (trace w)
        ++ [mkRequest POST (base_url self ++ "/voiceover/next") (Some (PyDict []))])%list
  /\ requests_of (trace (snd (navigate_previous srv self w)))
     = (requests_of (trace w)
        ++ [mkRequest POST (base_url self ++ "/voiceover/previous")
              (Some (PyDict []))])%list
  /\ requests_of (trace (snd (get_current_item srv self w)))
     = (requests_of (trace w)
        ++ [mkRequest GET (base_url self ++ "/voiceover/current") None])%list
  /\ requests_of (trace (snd (click_current srv self w)))
     = (requests_of (trace w)
        ++ [mkRequest POST (base_url self ++ "/voiceover/click") (Some (PyDict []))])%list
  /\ requests_of (trace (snd (open_app srv self arg w)))
     = (requests_of (trace w)
        ++ [mkRequest POST (base_url self ++ "/system/open-app")
              (Some (PyDict [("appName", arg)]))])%list
  /\ requests_of (trace (snd (press_key srv self arg w)))
     = (requests_of (trace w)
        ++ [mkRequest POST (base_url self ++ "/system/press-key")
              (Some (PyDict [("key", arg)]))])%list
  /\ requests_of (trace (snd (open_copilot_and_send_message srv self arg w)))
     = (requests_of (trace w)
        ++ [mkRequest POST (base_url self ++ "/operations/open-copilot-and-send-message")
              (Some (PyDict [("message", arg)]))])%list
  /\ requests_of (trace (snd (health_check srv self w)))
     = (requests_of (trace w)
        ++ [mkRequest GET (base_url self ++ "/health") None])%list.
Proof.
  repeat split;
    first [ exact (wrapper_post_calls self _ _ w) | exact (wrapper_get_calls self _ _ w) ].
Qed.

(** The record read off a reply, as [make_request_value] gives it. *)
Lemma make_request_eq (self : VoiceOverClient) (method endpoint : string)
    (data : pyval) (w : world) :
  str_upper method = "GET" \/ str_upper method = "POST" ->
  _make_request srv self method endpoint data w
  = (Ret match srv (served w) (sent_request self method endpoint data) with
         | inl e => failure (if is_ConnectionError e then connection_message
                             else exn_str e)
         | inr resp =>
             match body resp with
             | Decoded (PyDict d) =>
                 mkVoiceOverResponse
                   (dict_get d "success" (PyBool false))
                   (dict_get d "message" PyNone)
                   (dict_get d "currentItem" PyNone)
                   (dict_get d "responses" PyNone)
                   (dict_get d "error" PyNone)
             | Decoded v =>
                 failure ("'" ++ type_name v ++ "' object has no attribute 'get'")
             | Undecodable msg => failure msg
             end
         end,
     mkWorld (S (served w))
       (trace w ++ [EvRequest (sent_request self method endpoint data)])).
Proof.
  intros Hm.
  rewrite (surjective_pairing (_make_request srv self method endpoint data w)).
  rewrite (make_request_value self method endpoint data w Hm).
  rewrite (make_request_world self method endpoint data w Hm).
  reflexivity.
Qed.


(** X5.  [get_current_state] never raises, and what it returns is read
    off the reply to its one GET: the current item when the reply is a
    JSON object with a truthy [success] and a truthy item, the text
    ["No current item"] when the item is missing, [None] or empty, and
    otherwise ["Error getting current state: "] followed by the error of
    the record. *)
Theorem get_current_state_cases (self : AccessibilityAgent) (w : world) :
  fst (get_current_state srv self w)
  = Ret match srv (served w)
                (mkRequest GET (base_url (voice_over self) ++ "/voiceover/current")
                   None) with
        | inl e =>
            PyStr ("Error getting current state: "
                   ++ (if is_ConnectionError e then connection_message
                       else exn_str e))
        | inr resp =>
            match body resp with
            | Decoded (PyDict d) =>
                if truthy (dict_get d "success" (PyBool false))
                then if truthy (dict_get d "currentItem" PyNone)
                     then dict_get d "currentItem" PyNone
                     else PyStr "No current item"
                else PyStr ("Error getting current state: "
                            ++ py_str (dict_get d "error" PyNone))
            | Decoded v =>
                PyStr ("Error getting current state: '" ++ type_name v
                       ++ "' object has no attribute 'get'")
            | Undecodable msg => PyStr ("Error getting current state: " ++ msg)
            end
        end.
Proof.
  unfold get_current_state, get_current_item, bind.
  rewrite (make_request_eq (voice_over self) "GET" "/voiceover/current" PyNone w
             (or_introl upper_GET)).
  rewrite (sent_request_GET (voice_over self) "GET" "/voiceover/current" PyNone
             upper_GET).
  destruct (srv (served w) _) as [e | resp]; cbn.
  - reflexivity.
  - destruct (body resp) as [v | msg]; cbn; [| reflexivity].
    destruct v; cbn; try reflexivity.
    unfold py_or. destruct (truthy (dict_get entries "success" (PyBool false)));
      reflexivity.
Qed.

(** Printing the responses makes no call; it returns, or stops at the
    first line the console cannot encode. *)
Lemma print_responses_quiet (items : list pyval) :
  forall (i : Z) (w : world),
    exists evs,
      snd (print_responses i items w) = mkWorld (served w) (trace w ++ evs)
      /\ requests_of evs = []
      /\ match fst (print_responses i items w) with
         | Ret _ => True
         | Raise e => encode_failure e
         | OutOfFuel => False
         end.
Proof.
  induction items as [| response rest IH]; intros i w; cbn [print_responses].
  - exists []. rewrite app_nil_r. destruct w. repeat split.
  - unfold bind, print_text.
    destruct (has_surrogate ("  " ++ int_str i ++ ". " ++ py_str response)) eqn:Hline.
    + exists []. rewrite app_nil_r. destruct w. unfold raise. cbn [fst snd].
      repeat split. eexists. split; [exact Hline | reflexivity].
    + unfold print, emit.
      destruct (IH (i + 1)%Z
                  (mkWorld (served w)
                     (trace w ++ [EvPrint ("  " ++ int_str i ++ ". " ++ py_str response)])))
        as [evs [Hrun [Hquiet Hres]]].
      exists (EvPrint ("  " ++ int_str i ++ ". " ++ py_str response) :: evs).
      cbn [served trace] in Hrun. rewrite <- app_assoc in Hrun. cbn [app] in Hrun.
      split; [exact Hrun | split; [exact Hquiet | exact Hres]].
Qed.

Lemma py_iter_cases (v : pyval) (w : world) :
  (iterable v = true /\ exists items, py_iter v w = (Ret items, w))
  \/ (iterable v = false
      /\ py_iter v w
         = (Raise (mkExn OtherException
                     ("'" ++ type_name v ++ "' object is not iterable")), w)).
Proof.
  destruct v; cbn; first [left; split; [reflexivity | eexists; reflexivity]
                         | right; split; reflexivity].
Qed.

End MoreClientProperties.

Ltac wrapper_returns :=
  match goal with
  | |- context [_make_request ?srv ?s "POST" ?e ?d ?w0] =>
      let r := fresh "r" in
      let Hr := fresh "Hr" in
      destruct (make_request_step srv s "POST" e d w0 (or_intror upper_POST)) as [r Hr];
      rewrite Hr; clear Hr;
      rewrite (sent_request_POST s "POST" e d upper_POST)
  | |- context [_make_request ?srv ?s "GET" ?e ?d ?w0] =>
      let r := fresh "r" in
      let Hr := fresh "Hr" in
      destruct (make_request_step srv s "GET" e d w0 (or_introl upper_GET)) as [r Hr];
      rewrite Hr; clear Hr;
      rewrite (sent_request_GET s "GET" e d upper_GET)
  end.

Ltac close_calls :=
  cbn [served trace];
  rewrite ?requests_of_app; cbn [requests_of];
  rewrite <- ?app_assoc, ?app_nil_r; cbn [app];
  try reflexivity.

Section DemoProperties.
Context `{PyBuiltins}.
Variable srv : server.

Lemma wrapper_post_object (self : VoiceOverClient) (endpoint : string)
    (data : pyval) (w : world) (code : Z) (d : pydict) :
  srv (served w)
    (mkRequest POST (base_url self ++ endpoint) (Some (py_or data (PyDict []))))
  = inr (mkResponse code (Decoded (PyDict d))) ->
  _make_request srv self "POST" endpoint data w
  = (Ret (mkVoiceOverResponse
            (dict_get d "success" (PyBool false))
            (dict_get d "message" PyNone)
            (dict_get d "currentItem" PyNone)
            (dict_get d "responses" PyNone)
            (dict_get d "error" PyNone)),
     mkWorld (S (served w))
       (trace w ++
        [EvRequest (mkRequest POST (base_url self ++ endpoint)
                      (Some (py_or data (PyDict []))))])).
Proof.
  intros Hreply.
  rewrite (make_request_eq srv self "POST" endpoint data w (or_intror upper_POST)).
  rewrite (sent_request_POST self "POST" endpoint data upper_POST).
  rewrite Hreply. reflexivity.
Qed.

(** X6.  The demo makes its calls in a fixed order.  It returns after
    the start call alone, or after the start, send and stop calls.  It
    raises after the start call alone, when the line that reports the
    failed start cannot be encoded; or after the start and send calls,
    on a [TypeError] for a truthy [responses] value that cannot be
    iterated, or when a response line or the line that reports the
    failed send cannot be encoded.  Whenever it raises, no stop call is
    made. *)
Theorem demo_conversation_calls (self : AccessibilityAgent) (w : world) :
  match demo_conversation_with_copilot srv self w with
  | (Ret _, w') =>
      requests_of (trace w')
      = (requests_of (trace w)
         ++ [mkRequest POST (base_url (voice_over self) ++ "/voiceover/start")
               (Some (PyDict []))])%list
      \/ requests_of (trace w')
         = (requests_of (trace w)
            ++ [mkRequest POST (base_url (voice_over self) ++ "/voiceover/start")
                  (Some (PyDict []));
                mkRequest POST
                  (base_url (voice_over self)
                   ++ "/operations/open-copilot-and-send-message")
                  (Some (PyDict [("message", PyStr demo_message)]));
                mkRequest POST (base_url (voice_over self) ++ "/voiceover/stop")
                  (Some (PyDict []))])%list
  | (Raise e, w') =>
      (requests_of (trace w')
       = (requests_of (trace w)
          ++ [mkRequest POST (base_url (voice_over self) ++ "/voiceover/start")
                (Some (PyDict []))])%list
       /\ encode_failure e)
      \/ (requests_of (trace w')
          = (requests_of (trace w)
             ++ [mkRequest POST (base_url (voice_over self) ++ "/voiceover/start")
                   (Some (PyDict []));
                 mkRequest POST
                   (base_url (voice_over self)
                    ++ "/operations/open-copilot-and-send-message")
                   (Some (PyDict [("message", PyStr demo_message)]))])%list
          /\ (encode_failure e
              \/ exists v,
                  truthy v = true /\ iterable v = false
                  /\ e = mkExn OtherException
                           ("'" ++ type_name v ++ "' object is not iterable")))
  | (OutOfFuel, _) => False
  end.
Proof.
  unfold demo_conversation_with_copilot, start_voiceover,
    open_copilot_and_send_message, stop_voiceover.
  unfold bind, print_text, print, emit, ret, raise. cbn [served trace].
  wrapper_returns. cbn [py_or truthy served trace].
  destruct (truthy (success r)); cbn [negb].
  2:{ destruct (has_surrogate _) eqn:Hline.
      - left. split; [close_calls | eexists; split; [exact Hline | reflexivity]].
      - left. close_calls. }
  wrapper_returns. cbn [py_or truthy served trace].
  destruct (truthy (success r0)) eqn:Hsent.
  - destruct (truthy (responses r0)) eqn:Hresp.
    + match goal with
      | |- context [py_iter ?v ?w0] =>
          destruct (py_iter_cases v w0) as [[_ [items Hiter]] | [Hno Hiter]];
          rewrite Hiter; clear Hiter
      end.
      * match goal with
        | |- context [print_responses ?i ?l ?w0] =>
            destruct (print_responses_quiet l i w0) as [evs [Hrun [Hquiet Hres]]];
            destruct (print_responses i l w0) as [[[] | e |] w1];
            cbn [fst snd] in Hrun, Hres; subst w1
        end.
        -- wrapper_returns. cbn [py_or truthy served trace]. right.
           close_calls. rewrite Hquiet. reflexivity.
        -- right. split; [close_calls; rewrite Hquiet; reflexivity | left; exact Hres].
        -- contradiction.
      * right. split; [close_calls |]. right. exists (responses r0). auto.
    + wrapper_returns. cbn [py_or truthy served trace]. right. close_calls.
  - destruct (has_surrogate _) eqn:Hline.
    + right. split; [close_calls | left; eexists; split; [exact Hline | reflexivity]].
    + wrapper_returns. cbn [py_or truthy served trace]. right. close_calls.
Qed.

(** X7.  When the start and the send are both answered with a JSON
    object whose [success] is truthy, and the [responses] entry of the
    second is truthy but neither a list, a string nor an object (a
    number, or [true]), the demo raises the [TypeError] of the [for]
    loop to its caller after the send: the stop call is never made. *)
Theorem demo_conversation_leaves_voiceover_running (self : AccessibilityAgent)
    (w : world) (c1 c2 : Z) (d1 d2 : pydict) :
  srv (served w)
    (mkRequest POST (base_url (voice_over self) ++ "/voiceover/start")
       (Some (PyDict [])))
  = inr (mkResponse c1 (Decoded (PyDict d1))) ->
  truthy (dict_get d1 "success" (PyBool false)) = true ->
  srv (S (served w))
    (mkRequest POST
       (base_url (voice_over self) ++ "/operations/open-copilot-and-send-message")
       (Some (PyDict [("message", PyStr demo_message)])))
  = inr (mkResponse c2 (Decoded (PyDict d2))) ->
  truthy (dict_get d2 "success" (PyBool false)) = true ->
  truthy (dict_get d2 "responses" PyNone) = true ->
  iterable (dict_get d2 "responses" PyNone) = false ->
  fst (demo_conversation_with_copilot srv self w)
  = Raise (mkExn OtherException
             ("'" ++ type_name (dict_get d2 "responses" PyNone)
              ++ "' object is not iterable"))
  /\ requests_of (trace (snd (demo_conversation_with_copilot srv self w)))
     = (requests_of (trace w)
        ++ [mkRequest POST (base_url (voice_over self) ++ "/voiceover/start")
              (Some (PyDict []));
            mkRequest POST
              (base_url (voice_over self)
               ++ "/operations/open-copilot-and-send-message")
              (Some (PyDict [("message", PyStr demo_message)]))])%list.
Proof.
  intros Hstart Hstarted Hsend Hsent Hresp Hscalar.
  unfold demo_conversation_with_copilot, start_voiceover,
    open_copilot_and_send_message, stop_voiceover.
  unfold bind, print, emit, ret. cbn [served trace].
  match goal with
  | |- context [_make_request srv ?s "POST" ?e ?d ?w0] =>
      rewrite (wrapper_post_object s e d w0 c1 d1 Hstart)
  end.
  cbn [success served trace]. rewrite Hstarted. cbn [negb served trace].
  match goal with
  | |- context [_make_request srv ?s "POST" ?e ?d ?w0] =>
      rewrite (wrapper_post_object s e d w0 c2 d2 Hsend)
  end.
  cbn [success responses served trace]. rewrite Hsent, Hresp.
  match goal with
  | |- context [py_iter ?v ?w0] =>
      destruct (py_iter_cases v w0) as [[Hyes _] | [_ Hiter]];
      [congruence | rewrite Hiter; clear Hiter]
  end.
  cbn [fst snd]. split; [reflexivity | close_calls].
Qed.

(** X8.  The entry point of the client module never raises.  It checks
    health, and goes on to type its greeting exactly when the reply to
    the health check is a JSON object with a truthy [success]; any other
    reply, a health object without a [success] entry included, is
    reported as the server not running, after that single call. *)
Theorem client_main_calls (w : world) :
  exists w',
    client_main srv w = (Ret tt, w')
    /\ requests_of (trace w')
       = (requests_of (trace w)
          ++ mkRequest GET "http://localhost:3000/health" None
             :: (if match srv (served w)
                              (mkRequest GET "http://localhost:3000/health" None) with
                    | inl _ => false
                    | inr resp =>
                        match body resp with
                        | Decoded (PyDict d) =>
                            truthy (dict_get d "success" (PyBool false))
                        | _ => false
                        end
                    end
                 then [mkRequest POST "http://localhost:3000/voiceover/type"
                         (Some (PyDict [("text", PyStr "Hello from Python!")]))]
                 else []))%list.
Proof.
  unfold client_main. cbv zeta.
  unfold bind, print, emit, ret, health_check. cbn [served trace].
  rewrite (make_request_eq srv (voice_over new_agent) "GET" "/health" PyNone _
             (or_introl upper_GET)).
  rewrite (sent_request_GET (voice_over new_agent) "GET" "/health" PyNone upper_GET).
  cbn [served trace voice_over new_agent base_url append].
  assert (Htype : forall w0,
             execute_llm_command srv new_agent
               [("action", PyStr "type"); ("text", PyStr "Hello from Python!")] w0
             = _make_request srv (voice_over new_agent) "POST" "/voiceover/type"
                 (PyDict [("text", PyStr "Hello from Python!")]) w0)
    by reflexivity.
  destruct (srv (served w) _) as [e | resp]; cbn [success failure truthy].
  - eexists. split; [reflexivity | close_calls].
  - destruct (body resp) as [v | msg]; cbn [success failure truthy];
      [| eexists; split; [reflexivity | close_calls]].
    destruct v; cbn [success failure truthy];
      try (eexists; split; [reflexivity | close_calls]).
    destruct (truthy (dict_get entries "success" (PyBool false)));
      [| eexists; split; [reflexivity | close_calls]].
    rewrite Htype. wrapper_returns.
    cbn [served trace py_or truthy voice_over new_agent base_url append].
    eexists. split; [reflexivity | close_calls].
Qed.
End DemoProperties.

Section ScriptCalls.
Context `{PyBuiltins}.
Variable srv : server.

Ltac run_world :=
  unfold bind, ret, raise, print_text, print, sleep, emit, requests_get,
    requests_post, http_send, response_json, py_get, py_lower;
  cbn -[int_str Z.eqb].

Ltac leaf_calls :=
  unfold made; cbn [served trace];
  rewrite ?requests_of_app; cbn [requests_of];
  rewrite <- ?app_assoc, ?app_nil_r; cbn [app];
  try reflexivity.

Ltac name_response :=
  repeat match goal with
         | r : response |- _ => destruct r; cbn [body status_code] in *
         end;
  subst.

Lemma step_health_check_calls (w : world) :
  exists fl w',
    step_health_check srv w = (Ret fl, w')
    /\ made w w' [health_request]
    /\ served w' = S (served w)
    /\ (fl = Proceed
        <-> exists d, srv (served w) health_request
                      = inr (mkResponse 200 (Decoded (PyDict d)))).
Proof.
  unfold step_health_check, try_except, health_request. run_world.
  repeat (split_match; cbn -[int_str Z.eqb]);
    (do 2 eexists; split; [reflexivity |]; split; [leaf_calls |];
     split; [reflexivity |]);
    name_response;
    try match goal with
        | Hc : (_ =? 200)%Z = true |- _ => apply Z.eqb_eq in Hc; subst
        | Hc : (_ =? 200)%Z = false |- _ => apply Z.eqb_neq in Hc
        end;
    split;
    solve [discriminate | eauto | intros [d0 Heq]; try reflexivity; congruence].
Qed.

Lemma step_start_voiceover_calls (w : world) :
  exists fl w',
    step_start_voiceover srv w = (Ret fl, w')
    /\ made w w' [start_request]
    /\ served w' = S (served w)
    /\ (fl = Proceed
        <-> exists code d,
              srv (served w) start_request = inr (mkResponse code (Decoded (PyDict d)))
              /\ truthy (dict_get d "success" PyNone) = true).
Proof.
  unfold step_start_voiceover, try_except, start_request. run_world.
  repeat (split_match; cbn -[int_str Z.eqb]);
    (do 2 eexists; split; [reflexivity |]; split; [leaf_calls |];
     split; [reflexivity |]);
    name_response;
    split;
    solve [discriminate | eauto
          | intros [code0 [d0 [Heq Hok]]]; try reflexivity; congruence].
Qed.

Lemma cons_before_tail (A : Type) (a : A) (l pre tail : list A) :
  l = (pre ++ tail)%list -> a :: l = ((a :: pre) ++ tail)%list.
Proof. intros ->. reflexivity. Qed.

Ltac split_tail :=
  first [ exact (eq_refl : _ = ([] ++ _)%list)
        | apply cons_before_tail; split_tail ].

Lemma step_open_copilot_total (w : world) :
  exists evs pre,
    step_open_copilot srv w = (Ret tt, mkWorld (S (served w)) (trace w ++ evs))
    /\ requests_of evs = [open_app_request]
    /\ evs = (pre ++ [EvPrint "   ⏰ Waiting for application to start...";
                      EvSleep 3000])%list.
Proof.
  unfold step_open_copilot, try_except, open_app_request. cbn [open_copilot_loop].
  unfold try_except. run_world.
  repeat (split_match; cbn -[int_str Z.eqb]);
    (eexists; eexists; split;
     [rewrite <- ?app_assoc; cbn [app]; reflexivity
     | split; [reflexivity | split_tail]]).
Qed.

Lemma step_stop_voiceover_total (w : world) :
  exists w',
    step_stop_voiceover srv w = (Ret tt, w')
    /\ made w w' [stop_request]
    /\ served w' = S (served w).
Proof.
  unfold step_stop_voiceover, try_except, stop_request. run_world.
  repeat (split_match; cbn -[int_str Z.eqb]);
    (eexists; split; [reflexivity |]; split; [leaf_calls | reflexivity]).
Qed.

Ltac leaf_made :=
  unfold made; cbn [served trace];
  rewrite ?requests_of_app; cbn [requests_of];
  rewrite <- ?app_assoc; cbn [app];
  reflexivity.

Ltac turn_leaf :=
  cbn [fst snd];
  first [ contradiction
        | split; [reflexivity |]; eexists; split; [leaf_made | cbn; lia]
        | eexists; split; [leaf_made | cbn; lia] ].

Lemma open_icon_body_calls : turn_calls (open_icon_body srv).
Proof.
  intros st w. unfold open_icon_body. run_world.
  repeat (split_match; cbn -[int_str Z.eqb]); turn_leaf.
Qed.

Lemma upload_body_calls : turn_calls (upload_body srv).
Proof.
  intros st w. unfold upload_body. run_world.
  repeat (split_match; cbn -[int_str Z.eqb]); turn_leaf.
Qed.

Lemma focus_check_body_calls : turn_calls (focus_check_body srv).
Proof.
  intros st w. unfold focus_check_body. cbn [decorative_scan]. run_world.
  repeat (split_match; cbn -[int_str Z.eqb]); turn_leaf.
Qed.

(** A loop that runs only below five attempts, on turns of at most two
    calls each, stops with fuel to spare after at most twice the
    attempts that remain. *)
Lemma loop_calls (cond : nav_state -> bool) (body : nav_state -> M (ctl * nav_state)) :
  turn_calls body ->
  (forall st, cond st = true -> (snd st < 5)%Z) ->
  forall (fuel : nat) (st : nav_state) (w : world),
    (0 <= snd st <= 5)%Z ->
    Z.to_nat (5 - snd st) < fuel ->
    match py_while fuel cond body st w with
    | (Ret _, w') | (Raise _, w') =>
        exists rs, made w w' rs /\ length rs <= 2 * Z.to_nat (5 - snd st)
    | (OutOfFuel, _) => False
    end.
Proof.
  intros Hturn Hcond.
  induction fuel as [| fuel IH]; intros st w Hrange Hfuel.
  - lia.
  - cbn [py_while]. destruct (cond st) eqn:Hgo.
    + apply Hcond in Hgo. specialize (Hturn st w). unfold bind.
      destruct (body st w) as [[[[|] st'] | e |] w1]; cbn [fst snd].
      * destruct Hturn as [Hstep [rs [Hmade Hlen]]].
        specialize (IH st' w1).
        destruct (py_while fuel cond body st' w1) as [[st2 | e |] w2];
          try (destruct IH as [rs' [Hmade' Hlen']]; [lia | lia |];
               exists (rs ++ rs')%list; split;
               [exact (made_trans w w1 w2 rs rs' Hmade Hmade')
               | rewrite length_app; lia]).
        apply IH; lia.
      * destruct Hturn as [rs [Hmade Hlen]]. exists rs. split; [exact Hmade | lia].
      * destruct Hturn as [rs [Hmade Hlen]]. exists rs. split; [exact Hmade | lia].
      * contradiction.
    + exists []. split; [apply made_refl | cbn; lia].
Qed.

Lemma nav_cond_below (st : nav_state) : nav_cond st = true -> (snd st < 5)%Z.
Proof. intros Hc. apply nav_cond_true in Hc. unfold max_attempts in Hc. tauto. Qed.

Lemma focus_cond_below (st : nav_state) :
  (snd st <? max_focus_checks)%Z = true -> (snd st < 5)%Z.
Proof. unfold max_focus_checks. apply Z.ltb_lt. Qed.

Lemma made_print (w : world) (rs : list request) (n : nat) (t : list event)
    (line : string) :
  made w (mkWorld n t) rs -> made w (mkWorld n (t ++ [EvPrint line])) rs.
Proof.
  unfold made. cbn [trace]. intros Hmade. rewrite requests_of_app, Hmade.
  cbn [requests_of]. rewrite app_nil_r. reflexivity.
Qed.

Lemma made_to_world (w w' : world) (rs : list request) (n : nat) :
  made w w' rs -> made w (mkWorld n (trace w')) rs.
Proof. unfold made. cbn [trace]. tauto. Qed.

Lemma made_from_print (w' : world) (rs : list request) (n : nat) (t : list event)
    (line : string) :
  made (mkWorld n (t ++ [EvPrint line])) w' rs -> made (mkWorld n t) w' rs.
Proof.
  unfold made. cbn [trace]. rewrite requests_of_app. cbn [requests_of].
  rewrite app_nil_r. tauto.
Qed.

Lemma made_from_world (w w' : world) (rs : list request) (n : nat) :
  made (mkWorld n (trace w)) w' rs -> made w w' rs.
Proof. unfold made. cbn [trace]. tauto. Qed.

Ltac to_prints := repeat apply made_print; try apply made_to_world.

Ltac loop_step Hfuel L :=
  match goal with
  | |- context [py_while ?fuel ?c ?b ?s ?w0] =>
      pose proof (loop_calls c b
                    ltac:(first [ exact open_icon_body_calls
                                | exact upload_body_calls
                                | exact focus_check_body_calls ])
                    ltac:(first [ exact nav_cond_below | exact focus_cond_below ])
                    fuel s w0
                    ltac:(cbn [snd]; lia)
                    (Hfuel : Z.to_nat (5 - snd (false, 0%Z)) < fuel)) as L;
      change (2 * Z.to_nat (5 - snd (false, 0%Z))) with 10 in L;
      change (py_while fuel c b s w0)
        with (@py_while nav_state fuel c b s w0) in *;
      destruct (@py_while nav_state fuel c b s w0) as [[?st | ?e |] ?w];
      [ destruct L as [?rs [?Hmade ?Hlen]]
      | destruct L as [?rs [?Hmade ?Hlen]]
      | contradiction ]
  end.

Ltac from_prints H :=
  repeat apply made_from_print in H; apply made_from_world in H.

Lemma step_navigation_total (fuel : nat) (w : world) :
  5 < fuel ->
  exists w' rs,
    step_navigation srv fuel w = (Ret tt, w')
    /\ made w w' rs
    /\ length rs <= 30.
Proof.
  intros Hfuel.
  unfold step_navigation, try_except, open_icon_loop, upload_loop, focus_check_loop.
  unfold bind, print, emit, ret. cbn [served trace].
  loop_step Hfuel L1; from_prints Hmade.
  2:{ do 2 eexists. split; [reflexivity |]. split; [to_prints; exact Hmade | lia]. }
  destruct (negb (fst st)); cbn [served trace].
  all: loop_step Hfuel L2.
  all: from_prints Hmade0.
  all: pose proof (made_trans _ _ _ _ _ Hmade Hmade0) as Htwo.
  all: try solve [ do 2 eexists; split; [reflexivity |]; split;
                   [to_prints; exact Htwo | rewrite length_app; lia] ].
  all: destruct (negb (fst st0)); cbn [served trace].
  all: loop_step Hfuel L3.
  all: from_prints Hmade1.
  all: pose proof (made_trans _ _ _ _ _ Htwo Hmade1) as Hall.
  all: try solve [ do 2 eexists; split; [reflexivity |]; split;
                   [to_prints; exact Hall | rewrite !length_app; lia] ].
  all: destruct (negb (fst st1)); cbn [served trace];
    (do 2 eexists; split; [reflexivity |]; split;
     [to_prints; exact Hall | rewrite !length_app; lia]).
Qed.

(** How a bounded loop is left, from how each of its turns is left. *)
Lemma loop_exit_cases (cond : nav_state -> bool)
    (body : nav_state -> M (ctl * nav_state)) (hit refused : nat -> Prop) :
  (forall st, cond st = true -> (snd st < 5)%Z) ->
  (forall st, fst st = false -> cond st = false -> (5 <= snd st)%Z) ->
  (forall st w,
      fst st = false ->
      match body st w with
      | (Ret (Next, st'), w') =>
          st' = (false, (snd st + 1)%Z) /\ served w < served w'
      | (Ret (Break, st'), w') =>
          served w < served w'
          /\ ((st' = (true, snd st) /\ hit (served w))
              \/ (st' = st /\ refused (served w)))
      | (Raise _, _) => True
      | (OutOfFuel, _) => False
      end) ->
  forall (fuel : nat) (st : nav_state) (w : world),
    fst st = false ->
    (0 <= snd st <= 5)%Z ->
    Z.to_nat (5 - snd st) < fuel ->
    match @py_while nav_state fuel cond body st w with
    | (Ret (found, attempts), w') =>
        (found = true /\ exists n, served w <= n < served w' /\ hit n)
        \/ (found = false /\ attempts = 5%Z)
        \/ (found = false /\ (attempts < 5)%Z
            /\ exists n, served w <= n < served w' /\ refused n)
    | (Raise _, _) => True
    | (OutOfFuel, _) => False
    end.
Proof.
  intros Hbelow Hdone Hturn.
  induction fuel as [| fuel IH]; intros [found attempts] w Hfound Hrange Hfuel;
    cbn [fst snd] in *; subst found.
  - lia.
  - cbn [py_while]. destruct (cond (false, attempts)) eqn:Hcond.
    + apply Hbelow in Hcond. cbn [snd] in Hcond.
      specialize (Hturn (false, attempts) w eq_refl).
      unfold bind.
      destruct (body (false, attempts) w) as [[[[|] st'] | e |] w1];
        cbn [fst snd] in *.
      * destruct Hturn as [-> Hserved].
        specialize (IH (false, (attempts + 1)%Z) w1 eq_refl).
        cbn [snd] in IH.
        assert (Hrange' : (0 <= attempts + 1 <= 5)%Z) by lia.
        assert (Hfuel' : Z.to_nat (5 - (attempts + 1)) < fuel) by lia.
        specialize (IH Hrange' Hfuel').
        destruct (@py_while nav_state fuel cond body (false, (attempts + 1)%Z) w1)
          as [[[found' attempts'] | e |] w2]; auto.
        destruct IH as [[Hf [n [Hn Hm]]] | [[Hf Ha] | [Hf [Ha [n [Hn Hm]]]]]].
        -- left. split; [exact Hf |]. exists n. split; [lia | exact Hm].
        -- right. left. auto.
        -- right. right. repeat split; auto. exists n. split; [lia | exact Hm].
      * destruct Hturn as [Hserved [[-> Hm] | [-> Hm]]]; unfold ret.
        -- left. split; [reflexivity |]. exists (served w). split; [lia | exact Hm].
        -- right. right. repeat split; auto. exists (served w).
           split; [lia | exact Hm].
      * exact I.
      * contradiction.
    + unfold ret. right. left. split; [reflexivity |].
      specialize (Hdone (false, attempts) eq_refl Hcond). cbn [snd] in Hdone. lia.
Qed.

Lemma upload_body_cases (st : nav_state) (w : world) :
  fst st = false ->
  match upload_body srv st w with
  | (Ret (Next, st'), w') =>
      st' = (false, (snd st + 1)%Z) /\ served w < served w'
  | (Ret (Break, st'), w') =>
      served w < served w'
      /\ ((st' = (true, snd st) /\ poll_matches_upload srv (served w))
          \/ (st' = st /\ poll_refused srv (served w)))
  | (Raise _, _) => True
  | (OutOfFuel, _) => False
  end.
Proof.
  destruct st as [found attempts]. cbn [fst snd]. intros ->.
  unfold upload_body. run_world.
  repeat (split_match; cbn -[int_str Z.eqb andb]); auto;
    name_response;
    (split; [first [reflexivity | lia] |]); try lia;
    first [ left; split; [reflexivity |];
            unfold poll_matches_upload, polled, poll_request; cbn -[andb]; eauto 10
          | right; split; [reflexivity |];
            unfold poll_refused, polled, poll_request; cbn; eauto 10 ].
Qed.

Lemma focus_check_body_cases (st : nav_state) (w : world) :
  fst st = false ->
  match focus_check_body srv st w with
  | (Ret (Next, st'), w') =>
      st' = (false, (snd st + 1)%Z) /\ served w < served w'
  | (Ret (Break, st'), w') =>
      served w < served w'
      /\ ((st' = (true, snd st) /\ poll_decorative srv (served w))
          \/ (st' = st /\ poll_refused srv (served w)))
  | (Raise _, _) => True
  | (OutOfFuel, _) => False
  end.
Proof.
  destruct st as [found attempts]. cbn [fst snd]. intros ->.
  unfold focus_check_body. cbn [decorative_scan]. run_world.
  repeat (split_match; cbn -[int_str Z.eqb andb]); auto;
    name_response;
    (split; [first [reflexivity | lia] |]); try lia;
    first [ left; split; [reflexivity |];
            unfold poll_decorative, polled, poll_request; cbn; eauto 10
          | right; split; [reflexivity |];
            unfold poll_refused, polled, poll_request; cbn; eauto 10 ].
Qed.

Lemma nav_cond_done (st : nav_state) :
  fst st = false -> nav_cond st = false -> (5 <= snd st)%Z.
Proof.
  unfold nav_cond, max_attempts. intros ->. cbn [negb andb]. apply Z.ltb_ge.
Qed.

Lemma focus_cond_done (st : nav_state) :
  fst st = false -> (snd st <? max_focus_checks)%Z = false -> (5 <= snd st)%Z.
Proof. unfold max_focus_checks. intros _. apply Z.ltb_ge. Qed.

(** X12.  The second navigation loop, run with more than five units of
    fuel, is left in one of four ways: with the found flag set, after a
    successful poll whose lower-cased item contains both ["upload"] and
    ["file"]; with the counter at 5; with the counter below 5, after a
    poll whose reply has a falsy [success]; or by an exception.  It
    never runs out of fuel. *)
Theorem upload_loop_exits (fuel : nat) (w : world) :
  5 < fuel ->
  match upload_loop srv fuel w with
  | (Ret (found, attempts), w') =>
      (found = true
       /\ exists n, served w <= n < served w' /\ poll_matches_upload srv n)
      \/ (found = false /\ attempts = 5%Z)
      \/ (found = false /\ (attempts < 5)%Z
          /\ exists n, served w <= n < served w' /\ poll_refused srv n)
  | (Raise _, _) => True
  | (OutOfFuel, _) => False
  end.
Proof.
  intros Hfuel.
  apply (loop_exit_cases nav_cond (upload_body srv)
           (poll_matches_upload srv) (poll_refused srv)
           nav_cond_below nav_cond_done upload_body_cases
           fuel (false, 0%Z) w eq_refl);
    cbn [snd]; [lia | exact Hfuel].
Qed.

(** X14.  The decorative-image check, run with more than five units of
    fuel, is left in one of four ways: with the detected flag set, after
    a successful poll whose lower-cased item contains [", image"]; after
    five checks without a detection; before that, without a detection,
    on a poll whose reply has a falsy [success]; or by an exception.  It
    never runs out of fuel. *)
Theorem focus_check_loop_exits (fuel : nat) (w : world) :
  5 < fuel ->
  match focus_check_loop srv fuel w with
  | (Ret (detected, checks), w') =>
      (detected = true
       /\ exists n, served w <= n < served w' /\ poll_decorative srv n)
      \/ (detected = false /\ checks = 5%Z)
      \/ (detected = false /\ (checks < 5)%Z
          /\ exists n, served w <= n < served w' /\ poll_refused srv n)
  | (Raise _, _) => True
  | (OutOfFuel, _) => False
  end.
Proof.
  intros Hfuel.
  apply (loop_exit_cases (fun st => (snd st <? max_focus_checks)%Z)
           (focus_check_body srv)
           (poll_decorative srv) (poll_refused srv)
           focus_cond_below focus_cond_done focus_check_body_cases
           fuel (false, 0%Z) w eq_refl);
    cbn [snd]; [lia | exact Hfuel].
Qed.

(** X13.  When the upload control is found, its text holds no lone
    surrogate, so that the focus line can be printed, and the click on
    it is answered with a falsy [success], the turn reports the
    keyboard failure, announces a mouse click, sleeps one second,
    reports the control as activated via mouse and sleeps two more
    seconds: the click is the last call of the turn, no mouse request
    is made. *)
Theorem upload_mouse_fallback (st : nav_state) (w : world) (code code' : Z)
    (d d' : pydict) (s : string) :
  srv (served w) poll_request = inr (mkResponse code (Decoded (PyDict d))) ->
  truthy (dict_get d "success" PyNone) = true ->
  dict_lookup d "currentItem" = Some (PyStr s) ->
  has_surrogate s = false ->
  str_in "upload" (str_lower s) && str_in "file" (str_lower s) = true ->
  srv (S (served w)) click_request = inr (mkResponse code' (Decoded (PyDict d'))) ->
  truthy (dict_get d' "success" PyNone) = false ->
  upload_body srv st w
  = (Ret (Break, (true, snd st)),
     mkWorld (S (S (served w)))
       (trace w ++
        [EvRequest poll_request;
         EvPrint ("   📍 Current focus: " ++ s);
         EvPrint "   ✅ Found Upload file control!";
         EvPrint "   ⌨️  Attempting keyboard activation...";
         EvRequest click_request;
         EvPrint "   ⚠️  Keyboard activation failed - control not accessible with keyboard";
         EvPrint "   🖱️  Using mouse activation as fallback...";
         EvPrint "   🖱️  Simulating mouse click on Upload file control...";
         EvSleep 1000;
         EvPrint "   ✅ Upload file control activated via mouse";
         EvSleep 2000])).
Proof.
  unfold poll_request, click_request. cbn.
  intros Hpoll Hok Hitem Hs Hmatch Hclick Hfailed.
  pose proof (dict_get_present d "currentItem" (PyStr "") (PyStr s) Hitem) as Hitem1.
  pose proof (dict_get_present d "currentItem" (PyStr "Unknown") (PyStr s) Hitem) as Hitem2.
  unfold upload_body. run_world.
  rewrite Hpoll. cbn -[andb]. rewrite Hok, Hitem1, Hitem2. cbn -[andb].
  rewrite Hs. cbn -[andb]. rewrite Hmatch. cbn. rewrite Hclick. cbn. rewrite Hfailed. cbn.
  rewrite <- !app_assoc. reflexivity.
Qed.

(** X16.  When the first poll of step 4 raises, the navigation step
    reports the error and returns after that one call: steps 4.1 to 4.3
    are all abandoned, and the exception does not leave the step. *)
Theorem navigation_abandoned_on_exception (fuel : nat) (w : world) (e : exn) :
  0 < fuel ->
  srv (served w) poll_request = inl e ->
  step_navigation srv fuel w
  = (Ret tt,
     mkWorld (S (served w))
       (trace w ++
        [EvPrint (nl ++ "4. Testing accessibility navigation scenario...");
         EvPrint "   🔍 Step 4.1: Navigating to Open(+) icon control...";
         EvRequest poll_request;
         EvPrint ("   ❌ Error during accessibility testing: " ++ exn_str e)])).
Proof.
  unfold poll_request. cbn. intros Hfuel Hpoll.
  destruct fuel as [| fuel]; [lia |].
  unfold step_navigation, try_except, open_icon_loop. cbn [py_while].
  change (nav_cond (false, 0%Z)) with true. cbv iota.
  unfold open_icon_body. run_world. rewrite Hpoll. cbn.
  rewrite <- !app_assoc. reflexivity.
Qed.

Lemma scenario_shapes (fuel : nat) (w : world) :
  5 < fuel ->
  exists w',
    test_voiceover_operations srv fuel w = (Ret tt, w')
    /\ ((made w w' [health_request]
         /\ ~ exists d, srv (served w) health_request
                        = inr (mkResponse 200 (Decoded (PyDict d))))
        \/ (made w w' [health_request; start_request]
            /\ (exists d, srv (served w) health_request
                          = inr (mkResponse 200 (Decoded (PyDict d))))
            /\ ~ exists code d,
                   srv (S (served w)) start_request
                   = inr (mkResponse code (Decoded (PyDict d)))
                   /\ truthy (dict_get d "success" PyNone) = true)
        \/ exists mid,
             length mid <= 30
             /\ made w w' ([health_request; start_request; open_app_request]
                           ++ mid ++ [stop_request])).
Proof.
  intros Hfuel. unfold test_voiceover_operations.
  unfold bind, print, emit, ret. cbn [served trace].
  match goal with
  | |- context [step_health_check srv ?w0] =>
      destruct (step_health_check_calls w0) as (fl & w1 & Hrun & Hmade & Hserved & Hgate);
      rewrite Hrun; clear Hrun
  end.
  cbn [served] in Hserved, Hgate. from_prints Hmade.
  destruct fl.
  2:{ eexists. split; [reflexivity |]. left. split; [exact Hmade |].
      intros Hok. apply Hgate in Hok. discriminate Hok. }
  match goal with
  | |- context [step_start_voiceover srv ?w0] =>
      destruct (step_start_voiceover_calls w0) as (fl & w2 & Hrun & Hmade2 & Hserved2 & Hgate2);
      rewrite Hrun; clear Hrun
  end.
  rewrite Hserved in Hgate2.
  pose proof (made_trans _ _ _ _ _ Hmade Hmade2) as Htwo.
  destruct fl.
  2:{ eexists. split; [reflexivity |]. right. left. split; [exact Htwo |]. split.
      - apply Hgate. reflexivity.
      - intros Hok. apply Hgate2 in Hok. discriminate Hok. }
  match goal with
  | |- context [step_open_copilot srv ?w0] =>
      destruct (step_open_copilot_total w0) as (evs & pre & Hrun & Hopen & _);
      rewrite Hrun; clear Hrun
  end.
  match goal with
  | |- context [step_navigation srv fuel ?w0] =>
      destruct (step_navigation_total fuel w0 Hfuel) as (w4 & mid & Hrun & Hmade4 & Hlen);
      rewrite Hrun; clear Hrun
  end.
  match goal with
  | |- context [step_stop_voiceover srv ?w0] =>
      destruct (step_stop_voiceover_total w0) as (w5 & Hrun & Hmade5 & _);
      rewrite Hrun; clear Hrun
  end.
  eexists. split; [reflexivity |]. right. right. exists mid. split; [exact Hlen |].
  apply made_print.
  unfold made in *. cbn [trace] in *.
  rewrite Hmade5, Hmade4, requests_of_app, Hopen, Htwo.
  rewrite <- !app_assoc. reflexivity.
Qed.

(** X9.  Unless the health check is answered 200 with a JSON object,
    the scenario returns after that one call: an exception, another
    status, a body that is not JSON or not an object all end the run
    before VoiceOver is started. *)
Theorem scenario_health_gate (fuel : nat) (w : world) :
  (forall d, srv (served w) (mkRequest GET "http://localhost:3000/health" None)
             <> inr (mkResponse 200 (Decoded (PyDict d)))) ->
  fst (test_voiceover_operations srv fuel w) = Ret tt
  /\ requests_of (trace (snd (test_voiceover_operations srv fuel w)))
     = (requests_of (trace w)
        ++ [mkRequest GET "http://localhost:3000/health" None])%list.
Proof.
  intros Hdown. unfold test_voiceover_operations.
  unfold bind, print, emit, ret. cbn [served trace].
  match goal with
  | |- context [step_health_check srv ?w0] =>
      destruct (step_health_check_calls w0) as (fl & w1 & Hrun & Hmade & Hserved & Hgate);
      rewrite Hrun; clear Hrun
  end.
  cbn [served] in Hgate. from_prints Hmade.
  destruct fl.
  - destruct (proj1 Hgate eq_refl) as [d Hd]. exfalso. exact (Hdown d Hd).
  - split; [reflexivity | exact Hmade].
Qed.

(** X10.  When the health check passes but the start request is not
    answered with a JSON object whose [success] is truthy, the scenario
    returns after those two calls: nothing is opened, navigated or
    stopped. *)
Theorem scenario_start_gate (fuel : nat) (w : world) (d : pydict) :
  srv (served w) (mkRequest GET "http://localhost:3000/health" None)
    = inr (mkResponse 200 (Decoded (PyDict d))) ->
  (forall code d',
      srv (S (served w)) (mkRequest POST "http://localhost:3000/voiceover/start" None)
      = inr (mkResponse code (Decoded (PyDict d'))) ->
      truthy (dict_get d' "success" PyNone) = false) ->
  fst (test_voiceover_operations srv fuel w) = Ret tt
  /\ requests_of (trace (snd (test_voiceover_operations srv fuel w)))
     = (requests_of (trace w)
        ++ [mkRequest GET "http://localhost:3000/health" None;
            mkRequest POST "http://localhost:3000/voiceover/start" None])%list.
Proof.
  intros Hup Hrefused. unfold test_voiceover_operations.
  unfold bind, print, emit, ret. cbn [served trace].
  match goal with
  | |- context [step_health_check srv ?w0] =>
      destruct (step_health_check_calls w0) as (fl & w1 & Hrun & Hmade & Hserved & Hgate);
      rewrite Hrun; clear Hrun
  end.
  cbn [served] in Hserved, Hgate. from_prints Hmade.
  assert (Hfl : fl = Proceed) by (apply Hgate; exists d; exact Hup). subst fl.
  match goal with
  | |- context [step_start_voiceover srv ?w0] =>
      destruct (step_start_voiceover_calls w0) as (fl & w2 & Hrun & Hmade2 & Hserved2 & Hgate2);
      rewrite Hrun; clear Hrun
  end.
  rewrite Hserved in Hgate2.
  destruct fl.
  - destruct (proj1 Hgate2 eq_refl) as [code [d' [Hd Hok]]].
    rewrite (Hrefused code d' Hd) in Hok. discriminate Hok.
  - split; [reflexivity | exact (made_trans _ _ _ _ _ Hmade Hmade2)].
Qed.

(** X11.  Opening Copilot never stops the scenario: whatever the server
    does, the step returns after exactly one call, the open-app request
    for ["Copilot"], and its last two effects are the waiting line and a
    sleep of three seconds. *)
Theorem open_copilot_always_proceeds (w : world) :
  exists evs pre,
    step_open_copilot srv w = (Ret tt, mkWorld (S (served w)) (trace w ++ evs))
    /\ requests_of evs
       = [mkRequest POST "http://localhost:3000/system/open-app"
            (Some (PyDict [("appName", PyStr "Copilot")]))]
    /\ evs = (pre ++ [EvPrint "   ⏰ Waiting for application to start...";
                      EvSleep 3000])%list.
Proof. exact (step_open_copilot_total w). Qed.

(** X15.  With more than five units of fuel the navigation step always
    returns: no exception of its three loops leaves it, it never runs
    out of fuel, and it makes at most thirty calls. *)
Theorem navigation_step_returns (fuel : nat) (w : world) :
  5 < fuel ->
  exists w' rs,
    step_navigation srv fuel w = (Ret tt, w')
    /\ requests_of (trace w') = (requests_of (trace w) ++ rs)%list
    /\ length rs <= 30.
Proof. exact (step_navigation_total fuel w). Qed.

(** X17.  With more than five units of fuel the scenario always returns,
    whatever the server does, and its calls have one of three shapes:
    the health check alone; the health check and the start request; or
    the health check, the start request, the open-app request, at most
    thirty navigation calls, and the stop request last.  Once VoiceOver
    has been started, the run ends by asking to stop it. *)
Theorem scenario_always_stops (fuel : nat) (w : world) :
  5 < fuel ->
  exists w',
    test_voiceover_operations srv fuel w = (Ret tt, w')
    /\ (requests_of (trace w')
        = (requests_of (trace w)
           ++ [mkRequest GET "http://localhost:3000/health" None])%list
        \/ requests_of (trace w')
           = (requests_of (trace w)
              ++ [mkRequest GET "http://localhost:3000/health" None;
                  mkRequest POST "http://localhost:3000/voiceover/start" None])%list
        \/ exists mid,
             length mid <= 30
             /\ requests_of (trace w')
                = (requests_of (trace w)
                   ++ [mkRequest GET "http://localhost:3000/health" None;
                       mkRequest POST "http://localhost:3000/voiceover/start" None;
                       mkRequest POST "http://localhost:3000/system/open-app"
                         (Some (PyDict [("appName", PyStr "Copilot")]))]
                   ++ mid
                   ++ [mkRequest POST "http://localhost:3000/voiceover/stop" None])%list).
Proof.
  intros Hfuel.
  destruct (scenario_shapes fuel w Hfuel) as [w' [Hrun Hshape]].
  exists w'. split; [exact Hrun |].
  destruct Hshape as [[Hone _] | [[Htwo _] | [mid [Hlen Hall]]]].
  - left. exact Hone.
  - right. left. exact Htwo.
  - right. right. exists mid. split; [exact Hlen | exact Hall].
Qed.

End ScriptCalls.

(** ** The properties on sample runs *)

#[local] Existing Instance ascii_builtins.

(** A failure whose exception has an empty message yields an empty
    error string: the wrapper adds nothing to [str(e)]. *)
Lemma make_request_empty_error :
  fst (health_check (failing_server (mkExn OtherException "")) default_client
         initial_world)
  = Ret (mkVoiceOverResponse (PyBool false) PyNone PyNone PyNone (PyStr "")).
Proof. reflexivity. Qed.

(** A poll answered [{"success": false}] ends the first loop at once:
    nothing found, and no attempt used. *)
Lemma open_icon_loop_refused_poll :
  open_icon_loop (constant_server (ok_json [("success", PyBool false)])) 6
    initial_world
  = (Ret (false, 0%Z),
     mkWorld 1
       [EvRequest poll_request;
        EvPrint "   ❌ Unable to get current element: None"]).
Proof. reflexivity. Qed.


(** The first loop is left the same way: the exception of the focus
    line ends it after one poll. *)
Example open_icon_loop_unprintable_item :
  open_icon_loop (constant_server show_more_cut_short) 6 initial_world
  = (Raise (mkExn ValueError
              "'utf-8' codec can't encode character '\ud83d' in position 30: surrogates not allowed"),
     mkWorld 1 [EvRequest poll_request]).
Proof. vm_compute. reflexivity. Qed.

(** An item that is not text ends the loop as well, before anything is
    printed: it has no [lower]. *)
Example open_icon_loop_item_not_text :
  open_icon_loop (constant_server numeric_item) 6 initial_world
  = (Raise (mkExn AttributeError "'int' object has no attribute 'lower'"),
     mkWorld 1 [EvRequest poll_request]).
Proof. reflexivity. Qed.


(** Against an element that never matches, the first loop uses its five
    attempts: five polls, five calls to [next]. *)
Example open_icon_loop_exhausts :
  fst (open_icon_loop (constant_server close_button) 6 initial_world)
  = Ret (false, 5%Z)
  /\ requests_of (trace (snd (open_icon_loop (constant_server close_button) 6
                               initial_world)))
     = [poll_request; next_request; poll_request; next_request; poll_request;
        next_request; poll_request; next_request; poll_request; next_request].
Proof. split; reflexivity. Qed.

(** With fewer than six units of fuel the same run is cut short. *)
Example open_icon_loop_needs_fuel :
  fst (open_icon_loop (constant_server close_button) 5 initial_world) = OutOfFuel.
Proof. reflexivity. Qed.

(** A complete run against a server that keeps reporting the same
    unmatched element: every step is reached, the last call is the stop. *)
Example scenario_full_run :
  fst (test_voiceover_operations (constant_server close_button) 6 initial_world)
  = Ret tt
  /\ length (requests_of (trace (snd (test_voiceover_operations
                                        (constant_server close_button) 6
                                        initial_world)))) = 34
  /\ last (requests_of (trace (snd (test_voiceover_operations
                                      (constant_server close_button) 6
                                      initial_world))))
          poll_request
     = mkRequest POST "http://localhost:3000/voiceover/stop" None.
Proof. repeat split; reflexivity. Qed.

Lemma get_current_item_unchanged_run :
  constant_server
    (ok_json [("success", PyBool true); ("currentItem", PyStr "Submit, button")])
    (served initial_world)
    (mkRequest GET (base_url default_client ++ "/voiceover/current") None)
  = inr (mkResponse 200
           (Decoded (PyDict [("success", PyBool true);
                             ("currentItem", PyStr "Submit, button")])))
  /\ get_current_item
       (constant_server
          (ok_json [("success", PyBool true); ("currentItem", PyStr "Submit, button")]))
       default_client initial_world
     = (Ret (mkVoiceOverResponse (PyBool true) PyNone (PyStr "Submit, button")
               PyNone PyNone),
        mkWorld 1 [EvRequest (mkRequest GET "http://localhost:3000/voiceover/current" None)]).
Proof.
  split; [reflexivity |].
  exact (get_current_item_unchanged _ default_client "Submit, button" 200
           initial_world eq_refl).
Defined.

Lemma navigation_loops_terminate_run :
  5 < 6
  /\ (exists evs,
         trace (snd (open_icon_loop (constant_server close_button) 6 initial_world))
         = (trace initial_world ++ evs)%list
         /\ calls_to "http://localhost:3000/voiceover/current" evs <= 5
         /\ calls_to "http://localhost:3000/voiceover/next" evs <= 5
         /\ match fst (open_icon_loop (constant_server close_button) 6 initial_world) with
            | Ret st => (0 <= snd st <= 5)%Z
            | Raise _ => True
            | OutOfFuel => False
            end)
  /\ (exists evs,
         trace (snd (upload_loop (constant_server close_button) 6 initial_world))
         = (trace initial_world ++ evs)%list
         /\ calls_to "http://localhost:3000/voiceover/current" evs <= 5
         /\ calls_to "http://localhost:3000/voiceover/next" evs <= 5
         /\ match fst (upload_loop (constant_server close_button) 6 initial_world) with
            | Ret st => (0 <= snd st <= 5)%Z
            | Raise _ => True
            | OutOfFuel => False
            end).
Proof.
  split; [lia |].
  apply (navigation_loops_terminate (constant_server close_button) 6 initial_world).
  lia.
Defined.


Lemma scenario_stops_when_start_fails_run :
  start_unsupported (served initial_world)
    (mkRequest GET "http://localhost:3000/health" None)
  = inr (mkResponse 200 (Decoded (PyDict [("voiceOverRunning", PyBool false)])))
  /\ start_unsupported (S (served initial_world))
       (mkRequest POST "http://localhost:3000/voiceover/start" None)
     = inr (mkResponse 200
              (Decoded (PyDict [("success", PyBool false);
                                ("error", PyStr "VoiceOver not supported")])))
  /\ requests_of (trace (snd (test_voiceover_operations start_unsupported 6
                                initial_world)))
     = [mkRequest GET "http://localhost:3000/health" None;
        mkRequest POST "http://localhost:3000/voiceover/start" None].
Proof.
  do 2 (split; [reflexivity |]).
  rewrite (scenario_stops_when_start_fails start_unsupported 6 initial_world 200
             eq_refl eq_refl).
  reflexivity.
Defined.

Lemma open_icon_loop_exits_run :
  5 < 6
  /\ match open_icon_loop (constant_server close_button) 6 initial_world with
     | (Ret (found, attempts), w') =>
         (found = true
          /\ exists n, served initial_world <= n < served w'
                       /\ poll_matches (constant_server close_button) n)
         \/ (found = false /\ attempts = 5%Z)
         \/ (found = false /\ (attempts < 5)%Z
             /\ exists n, served initial_world <= n < served w'
                          /\ poll_refused (constant_server close_button) n)
     | (Raise _, _) => True
     | (OutOfFuel, _) => False
     end.
Proof.
  split; [lia |].
  apply (proj1 (open_icon_loop_exits (constant_server close_button)) 6 initial_world).
  lia.
Defined.

Lemma make_request_error_tiers_run :
  is_ConnectionError (mkExn ConnectionError "Connection refused") = true
  /\ fst (_make_request
            (failing_server (mkExn ConnectionError "Connection refused"))
            default_client "POST" "/voiceover/click" PyNone initial_world)
     = Ret (mkVoiceOverResponse (PyBool false) PyNone PyNone PyNone
              (PyStr "Could not connect to VoiceOver server. Make sure it's running.")).
Proof.
  split; [reflexivity |].
  apply (proj1 (make_request_error_tiers
                  (failing_server (mkExn ConnectionError "Connection refused"))
                  default_client "POST" "/voiceover/click" PyNone initial_world)
               (mkExn ConnectionError "Connection refused")).
  - right. reflexivity.
  - intros rq. reflexivity.
  - reflexivity.
Defined.

Lemma make_request_missing_success_run :
  (str_upper "post" = "GET" \/ str_upper "post" = "POST")
  /\ (forall rq,
         constant_server (ok_json [("message", PyStr "ok")]) (served initial_world) rq
         = inr (mkResponse 200 (Decoded (PyDict [("message", PyStr "ok")]))))
  /\ dict_lookup [("message", PyStr "ok")] "success" = None
  /\ exists r w',
      _make_request (constant_server (ok_json [("message", PyStr "ok")]))
        default_client "post" "/voiceover/next" PyNone initial_world = (Ret r, w')
      /\ success r = PyBool false
      /\ (dict_lookup [("message", PyStr "ok")] "message" = None -> message r = PyNone)
      /\ (dict_lookup [("message", PyStr "ok")] "currentItem" = None
          -> currentItem r = PyNone)
      /\ (dict_lookup [("message", PyStr "ok")] "responses" = None
          -> responses r = PyNone)
      /\ (dict_lookup [("message", PyStr "ok")] "error" = None -> error r = PyNone).
Proof.
  split; [right; reflexivity |].
  split; [intros rq; reflexivity |].
  split; [reflexivity |].
  apply (make_request_missing_success
           (constant_server (ok_json [("message", PyStr "ok")]))
           default_client "post" "/voiceover/next" PyNone initial_world 200
           [("message", PyStr "ok")]).
  - right. reflexivity.
  - intros rq. reflexivity.
  - reflexivity.
Defined.


Lemma make_request_unsupported_method_run :
  str_upper "put" <> "GET"
  /\ str_upper "put" <> "POST"
  /\ _make_request (constant_server close_button) default_client "put"
       "/voiceover/next" PyNone initial_world
     = (Ret (mkVoiceOverResponse (PyBool false) PyNone PyNone PyNone
               (PyStr "Unsupported method: put")), initial_world).
Proof.
  assert (Hget : str_upper "put" <> "GET") by discriminate.
  assert (Hpost : str_upper "put" <> "POST") by discriminate.
  do 2 (split; [assumption |]).
  exact (make_request_unsupported_method (constant_server close_button)
           default_client "put" "/voiceover/next" PyNone initial_world Hget Hpost).
Defined.

(** ** The further properties on sample runs *)

Lemma make_request_sends_once_run :
  (str_upper "get" = "GET" \/ str_upper "get" = "POST")
  /\ snd (_make_request (constant_server close_button) default_client "get"
            "/health" (PyInt 7) initial_world)
     = mkWorld 1 [EvRequest (mkRequest GET "http://localhost:3000/health" None)].
Proof.
  split; [left; reflexivity |].
  exact (make_request_sends_once (constant_server close_button) default_client
           "get" "/health" (PyInt 7) initial_world (or_introl eq_refl)).
Defined.

Lemma make_request_reads_reply_run :
  (str_upper "post" = "GET" \/ str_upper "post" = "POST")
  /\ fst (_make_request (constant_server close_button) default_client "post"
            "/voiceover/next" PyNone initial_world)
     = Ret (mkVoiceOverResponse (PyBool true) PyNone (PyStr "Close, button")
              PyNone PyNone).
Proof.
  split; [right; reflexivity |].
  exact (make_request_reads_reply (constant_server close_button) default_client
           "post" "/voiceover/next" PyNone initial_world (or_intror eq_refl)).
Defined.

Lemma demo_conversation_leaves_voiceover_running_run :
  counting_server (served initial_world)
    (mkRequest POST (base_url (voice_over new_agent) ++ "/voiceover/start")
       (Some (PyDict [])))
  = inr (mkResponse 200 (Decoded (PyDict [("success", PyBool true)])))
  /\ truthy (dict_get [("success", PyBool true)] "success" (PyBool false)) = true
  /\ counting_server (S (served initial_world))
       (mkRequest POST
          (base_url (voice_over new_agent)
           ++ "/operations/open-copilot-and-send-message")
          (Some (PyDict [("message", PyStr demo_message)])))
     = inr (mkResponse 200
              (Decoded (PyDict [("success", PyBool true); ("responses", PyInt 3)])))
  /\ truthy (dict_get [("success", PyBool true); ("responses", PyInt 3)]
               "success" (PyBool false)) = true
  /\ truthy (dict_get [("success", PyBool true); ("responses", PyInt 3)]
               "responses" PyNone) = true
  /\ iterable (dict_get [("success", PyBool true); ("responses", PyInt 3)]
                 "responses" PyNone) = false
  /\ fst (demo_conversation_with_copilot counting_server new_agent initial_world)
     = Raise (mkExn OtherException "'int' object is not iterable")
  /\ requests_of (trace (snd (demo_conversation_with_copilot counting_server
                                new_agent initial_world)))
     = [mkRequest POST "http://localhost:3000/voiceover/start" (Some (PyDict []));
        mkRequest POST "http://localhost:3000/operations/open-copilot-and-send-message"
          (Some (PyDict [("message", PyStr demo_message)]))].
Proof.
  do 6 (split; [reflexivity |]).
  exact (demo_conversation_leaves_voiceover_running counting_server new_agent
           initial_world 200 200
           [("success", PyBool true)]
           [("success", PyBool true); ("responses", PyInt 3)]
           eq_refl eq_refl eq_refl eq_refl eq_refl eq_refl).
Defined.

Lemma scenario_health_gate_run :
  (forall d,
      failing_server (mkExn ConnectionError "Connection refused")
        (served initial_world) (mkRequest GET "http://localhost:3000/health" None)
      <> inr (mkResponse 200 (Decoded (PyDict d))))
  /\ fst (test_voiceover_operations
            (failing_server (mkExn ConnectionError "Connection refused")) 0
            initial_world) = Ret tt
  /\ requests_of (trace (snd (test_voiceover_operations
                                (failing_server (mkExn ConnectionError "Connection refused"))
                                0 initial_world)))
     = [mkRequest GET "http://localhost:3000/health" None].
Proof.
  assert (Hdown : forall d,
             failing_server (mkExn ConnectionError "Connection refused")
               (served initial_world)
               (mkRequest GET "http://localhost:3000/health" None)
             <> inr (mkResponse 200 (Decoded (PyDict d))))
    by (intros d; discriminate).
  split; [exact Hdown |].
  exact (scenario_health_gate
           (failing_server (mkExn ConnectionError "Connection refused")) 0
           initial_world Hdown).
Defined.

Lemma scenario_start_gate_run :
  start_unsupported (served initial_world)
    (mkRequest GET "http://localhost:3000/health" None)
  = inr (mkResponse 200 (Decoded (PyDict [("voiceOverRunning", PyBool false)])))
  /\ (forall code d',
         start_unsupported (S (served initial_world))
           (mkRequest POST "http://localhost:3000/voiceover/start" None)
         = inr (mkResponse code (Decoded (PyDict d'))) ->
         truthy (dict_get d' "success" PyNone) = false)
  /\ fst (test_voiceover_operations start_unsupported 0 initial_world) = Ret tt
  /\ requests_of (trace (snd (test_voiceover_operations start_unsupported 0
                                initial_world)))
     = [mkRequest GET "http://localhost:3000/health" None;
        mkRequest POST "http://localhost:3000/voiceover/start" None].
Proof.
  assert (Hrefused : forall code d',
             start_unsupported (S (served initial_world))
               (mkRequest POST "http://localhost:3000/voiceover/start" None)
             = inr (mkResponse code (Decoded (PyDict d'))) ->
             truthy (dict_get d' "success" PyNone) = false).
  { intros code d' Hreply. injection Hreply as _ <-. reflexivity. }
  split; [reflexivity |]. split; [exact Hrefused |].
  exact (scenario_start_gate start_unsupported 0 initial_world
           [("voiceOverRunning", PyBool false)] eq_refl Hrefused).
Defined.

Lemma upload_loop_exits_run :
  5 < 6
  /\ match upload_loop (constant_server close_button) 6 initial_world with
     | (Ret (found, attempts), w') =>
         (found = true
          /\ exists n, served initial_world <= n < served w'
                       /\ poll_matches_upload (constant_server close_button) n)
         \/ (found = false /\ attempts = 5%Z)
         \/ (found = false /\ (attempts < 5)%Z
             /\ exists n, served initial_world <= n < served w'
                          /\ poll_refused (constant_server close_button) n)
     | (Raise _, _) => True
     | (OutOfFuel, _) => False
     end.
Proof.
  split; [lia |].
  apply (upload_loop_exits (constant_server close_button) 6 initial_world). lia.
Defined.

Lemma upload_mouse_fallback_run :
  upload_refused (served initial_world) poll_request
  = inr (mkResponse 200
           (Decoded (PyDict [("success", PyBool true);
                             ("currentItem", PyStr "Upload File, button")])))
  /\ truthy (dict_get [("success", PyBool true);
                       ("currentItem", PyStr "Upload File, button")]
               "success" PyNone) = true
  /\ dict_lookup [("success", PyBool true);
                  ("currentItem", PyStr "Upload File, button")] "currentItem"
     = Some (PyStr "Upload File, button")
  /\ has_surrogate "Upload File, button" = false
  /\ str_in "upload" (str_lower "Upload File, button")
     && str_in "file" (str_lower "Upload File, button") = true
  /\ upload_refused (S (served initial_world)) click_request
     = inr (mkResponse 200 (Decoded (PyDict [("success", PyBool false)])))
  /\ truthy (dict_get [("success", PyBool false)] "success" PyNone) = false
  /\ requests_of (trace (snd (upload_body upload_refused (false, 0%Z) initial_world)))
     = [poll_request; click_request].
Proof.
  do 7 (split; [reflexivity |]).
  rewrite (upload_mouse_fallback upload_refused (false, 0%Z) initial_world 200 200
             [("success", PyBool true); ("currentItem", PyStr "Upload File, button")]
             [("success", PyBool false)] "Upload File, button");
    reflexivity.
Defined.

Lemma focus_check_loop_exits_run :
  5 < 6
  /\ match focus_check_loop (constant_server close_button) 6 initial_world with
     | (Ret (detected, checks), w') =>
         (detected = true
          /\ exists n, served initial_world <= n < served w'
                       /\ poll_decorative (constant_server close_button) n)
         \/ (detected = false /\ checks = 5%Z)
         \/ (detected = false /\ (checks < 5)%Z
             /\ exists n, served initial_world <= n < served w'
                          /\ poll_refused (constant_server close_button) n)
     | (Raise _, _) => True
     | (OutOfFuel, _) => False
     end.
Proof.
  split; [lia |].
  apply (focus_check_loop_exits (constant_server close_button) 6 initial_world). lia.
Defined.

Lemma navigation_step_returns_run :
  5 < 6
  /\ exists w' rs,
      step_navigation (constant_server close_button) 6 initial_world = (Ret tt, w')
      /\ requests_of (trace w') = (requests_of (trace initial_world) ++ rs)%list
      /\ length rs <= 30.
Proof.
  split; [lia |].
  apply (navigation_step_returns (constant_server close_button) 6 initial_world). lia.
Defined.

Lemma navigation_abandoned_on_exception_run :
  0 < 1
  /\ failing_server (mkExn OtherException "timed out") (served initial_world)
       poll_request
     = inl (mkExn OtherException "timed out")
  /\ step_navigation (failing_server (mkExn OtherException "timed out")) 1
       initial_world
     = (Ret tt,
        mkWorld 1
          [EvPrint (nl ++ "4. Testing accessibility navigation scenario...");
           EvPrint "   🔍 Step 4.1: Navigating to Open(+) icon control...";
           EvRequest poll_request;
           EvPrint "   ❌ Error during accessibility testing: timed out"]).
Proof.
  split; [lia |]. split; [reflexivity |].
  apply (navigation_abandoned_on_exception
           (failing_server (mkExn OtherException "timed out")) 1 initial_world
           (mkExn OtherException "timed out")).
  - lia.
  - reflexivity.
Defined.

Lemma scenario_always_stops_run :
  5 < 6
  /\ exists w',
      test_voiceover_operations (constant_server close_button) 6 initial_world
      = (Ret tt, w')
      /\ (requests_of (trace w')
          = (requests_of (trace initial_world)
             ++ [mkRequest GET "http://localhost:3000/health" None])%list
          \/ requests_of (trace w')
             = (requests_of (trace initial_world)
                ++ [mkRequest GET "http://localhost:3000/health" None;
                    mkRequest POST "http://localhost:3000/voiceover/start" None])%list
          \/ exists mid,
               length mid <= 30
               /\ requests_of (trace w')
                  = (requests_of (trace initial_world)
                     ++ [mkRequest GET "http://localhost:3000/health" None;
                         mkRequest POST "http://localhost:3000/voiceover/start" None;
                         mkRequest POST "http://localhost:3000/system/open-app"
                           (Some (PyDict [("appName", PyStr "Copilot")]))]
                     ++ mid
                     ++ [mkRequest POST "http://localhost:3000/voiceover/stop" None])%list).
Proof.
  split; [lia |].
  apply (scenario_always_stops (constant_server close_button) 6 initial_world). lia.
Defined.

(** The demo against a server that accepts everything and lists two
    replies: both are printed, numbered from 1, and VoiceOver is
    stopped. *)
Example demo_conversation_full_run :
  demo_conversation_with_copilot
    (constant_server
       (ok_json [("success", PyBool true);
                 ("responses", PyList [PyStr "Sure."; PyStr "Which app?"])]))
    new_agent initial_world
  = (Ret tt,
     mkWorld 3
       [EvPrint "=== Accessibility Agent Demo ===";
        EvPrint "Starting VoiceOver...";
        EvRequest (mkRequest POST "http://localhost:3000/voiceover/start"
                     (Some (PyDict [])));
        EvPrint "Sending message to Copilot: Hello, can you help me with accessibility testing on macOS?";
        EvRequest (mkRequest POST
                     "http://localhost:3000/operations/open-copilot-and-send-message"
                     (Some (PyDict [("message", PyStr demo_message)])));
        EvPrint "Message sent successfully!";
        EvPrint "Responses found:";
        EvPrint "  1. Sure.";
        EvPrint "  2. Which app?";
        EvPrint "Stopping VoiceOver...";
        EvRequest (mkRequest POST "http://localhost:3000/voiceover/stop"
                     (Some (PyDict [])))]).
Proof. reflexivity. Qed.

(** Iterating a string runs over its characters, not its bytes. *)
Example utf8_chars_sample :
  utf8_chars "a✅b" = ["a"; "✅"; "b"].
Proof. reflexivity. Qed.
